(** * MarkdownFileTracker

    A shallow embedding of
    [src/vs/workbench/parts/markdown/browser/markdownExtension.ts]:
    the workbench contribution that keeps markdown previews in sync with
    edits of the previewed document, with the configured CSS styles, with
    the colour theme and with file changes of the configured styles.

    The class is embedded as a record of its fields; its methods are
    computations in a state-and-exception monad over a [World] that holds
    the tracker, the closures created by [onEditorsChanged], the host
    services the tracker talks to, and a time-stamped log of every call
    the tracker makes into those services. *)

From stdpp Require Import gmap strings list fin_maps.
From Stdlib Require Import ZArith Lia.

Local Open Scope string_scope.
Local Open Scope nat_scope.
Local Open Scope list_scope.

(** ** Values of the host language *)

(** The JavaScript values a configuration tree is made of.  The style
    list is declared [string[]], so arrays hold strings. *)
Unset Elimination Schemes.
Inductive jsval : Type :=
| JUndefined
| JNull
| JBool (b : bool)
| JNum (n : Z)
| JStr (s : string)
| JArr (items : list string)
| JObj (fields : list (string * jsval)).
Set Elimination Schemes.

(** Truthiness, as tested by [if (x)] and [x && y]. *)
Definition truthy (v : jsval) : bool :=
  match v with
  | JUndefined | JNull => false
  | JBool b => b
  | JNum n => negb (n =? 0)%Z
  | JStr s => negb (String.eqb s "")
  | JArr _ | JObj _ => true
  end.

Fixpoint lookup_field (name : string) (fields : list (string * jsval)) : jsval :=
  match fields with
  | [] => JUndefined
  | (k, v) :: rest => if String.eqb k name then v else lookup_field name rest
  end.

(** [types.isArray]. *)
Definition isArray (v : jsval) : bool :=
  match v with JArr _ => true | _ => false end.

(** The value of a field typed [string] that may still be unset:
    [markdownConfigurationThumbprint] is [undefined] until first written,
    [null] while [readMarkdownConfiguration] runs, and a string or
    [undefined] afterwards. *)
Inductive jsstring : Type :=
| SUndefined
| SNull
| SStr (s : string).

(** Strict inequality [!==] on such values. *)
Definition strict_neq (a b : jsstring) : bool :=
  match a, b with
  | SUndefined, SUndefined => false
  | SNull, SNull => false
  | SStr x, SStr y => negb (String.eqb x y)
  | _, _ => true
  end.

(** [Array.prototype.join('')] on an array of strings. *)
Definition join_empty (l : list string) : string := String.concat "" l.

(** ** Data of the workbench *)

(** The four event sources the tracker subscribes to at top level. *)
Inductive Source : Type :=
| FileChangesSource       (* eventService, FileEventType.FILE_CHANGES *)
| ConfigurationSource     (* configurationService.onDidUpdateConfiguration *)
| EditorsChangedSource    (* editorGroupService.onEditorsChanged *)
| ThemeSource.            (* themeService.onDidThemeChange *)

Global Instance Source_eq_dec : EqDecision Source.
Proof. solve_decision. Defined.

Inductive FileChangeType : Type := UPDATED | ADDED | DELETED.

Global Instance FileChangeType_eq_dec : EqDecision FileChangeType.
Proof. solve_decision. Defined.

Record FileChange : Type := {
  change_resource : string;
  change_type : FileChangeType
}.

(** A [FileChangesEvent] is the set of changes it carries. *)
Definition FileChangesEvent : Type := list FileChange.

(** Modelled from the spec: [FileChangesEvent.containsAny] lives in
    [vs/platform/files/common/files], which is not part of the sources at
    hand.  The specification describes the test as "the event set
    contains an UPDATED change for any of" the resolved resources; a
    path that resolves to no resource ([None]) matches nothing. *)
Definition containsAny (e : FileChangesEvent) (resources : list (option string))
    (type : FileChangeType) : bool :=
  existsb (fun res =>
    match res with
    | None => false
    | Some r =>
        existsb (fun c => bool_decide (change_type c = type)
                          && String.eqb (change_resource c) r) e
    end) resources.

(** An editor input; [input_markdown] is [Some r] exactly when the input
    is an instance of [MarkdownEditorInput], and then [r] is
    [getResource().toString()]. *)
Record EditorInput : Type := {
  input_id : nat;
  input_markdown : option string
}.

(** A visible editor; [editor_iframe] says whether it is an instance of
    [IFrameEditor]. *)
Record Editor : Type := {
  editor_id : nat;
  editor_input : option EditorInput;
  editor_iframe : bool
}.

(** The pure helpers of other modules the tracker calls. *)
Class Services : Type := {
  getBaseThemeId : string -> string;        (* vs/platform/theme/common/themes *)
  normalize : string -> string;             (* paths.normalize *)
  makePosixAbsolute : string -> string;     (* paths.makePosixAbsolute *)
  toResource : string -> option string      (* contextService.toResource *)
}.

(** ** State *)

(** The three subscriptions gathered in [toUnbind] by [onEditorsChanged]. *)
Inductive Subscription : Type :=
| ContentListener        (* editorModel.onDidChangeContent *)
| InputDisposeListener   (* input.addListener2(EventType.DISPOSE, unbind) *)
| ModelDisposeListener.  (* editorModel.onWillDispose(unbind) *)

Global Instance Subscription_eq_dec : EqDecision Subscription.
Proof. solve_decision. Defined.

(** One activation of the body of [onEditorsChanged] (lines 89-114): the
    captured [markdownResource], the input it listens to, and the local
    array [toUnbind].  A subscription is installed in the host exactly
    while it is an element of [toUnbind]: the array is filled as the
    subscriptions are made and emptied by [dispose(toUnbind)]. *)
Record Closure : Type := {
  markdownResource : string;
  boundInput : nat;
  toUnbind : list Subscription
}.

(** A pending [setTimeout]: its handle, the instant it is due, and the
    closure whose callback it runs. *)
Record Timer : Type := {
  timer_id : nat;
  timer_due : nat;
  timer_closure : nat
}.

(** The private fields of [MarkdownFileTracker] (lines 38-45).  A
    listener field holds the disposable of its registration, or [None]
    for [null]/[undefined]. *)
Record Tracker : Type := {
  fileChangeListener : option Source;
  configFileChangeListener : option Source;
  themeChangeListener : option Source;
  editorInputChangeListener : option Source;
  markdownConfigurationThumbprint : jsstring;
  markdownConfigurationPaths : list string;
  reloadTimeout : option nat;
  hasModelListenerOnResourcePath : gmap string bool
}.

(** What the tracker can observe of the services injected into it. *)
Record Host : Type := {
  registered : list Source;          (* live top-level registrations *)
  timers : list Timer;               (* pending timeouts *)
  nextTimer : nat;                   (* next handle [setTimeout] returns *)
  now : nat;                         (* clock, in milliseconds *)
  activeInput : option EditorInput;  (* editorService.getActiveEditorInput() *)
  visibleEditors : list Editor;      (* editorService.getVisibleEditors() *)
  models : gset string;              (* resources modelService has a model for *)
  configuration : jsval;             (* configurationService.getConfiguration() *)
  theme : string                     (* themeService.getTheme() *)
}.

(** What the tracker does that can be observed from outside: its calls
    into the services, and every invocation of [reloadMarkdownEditors]
    with its arguments. *)
Inductive Effect : Type :=
| ConfigureMode (modeId : string) (baseTheme : string)
| AddListener (src : Source)
| DisposeListener (src : Source)
| GetConfiguration
| ToResource (path : string)
| ReloadMarkdownEditors (clearIFrame : bool) (resource : option string)
| EditorReload (editor : nat) (clearIFrame : bool)
| SetTimeout (handle : nat) (delay : nat)
| ClearTimeout (handle : nat).

Record World : Type := {
  tracker : Tracker;
  closures : list Closure;
  host : Host;
  trace : list (nat * Effect)
}.

(** Field updates. *)
Definition set_tracker (f : Tracker -> Tracker) (w : World) : World :=
  {| tracker := f (tracker w); closures := closures w;
     host := host w; trace := trace w |}.

Definition set_host (f : Host -> Host) (w : World) : World :=
  {| tracker := tracker w; closures := closures w;
     host := f (host w); trace := trace w |}.

Definition set_closures (f : list Closure -> list Closure) (w : World) : World :=
  {| tracker := tracker w; closures := f (closures w);
     host := host w; trace := trace w |}.

Definition with_listeners (fc cc tc ec : option Source) (t : Tracker) : Tracker :=
  {| fileChangeListener := fc; configFileChangeListener := cc;
     themeChangeListener := tc; editorInputChangeListener := ec;
     markdownConfigurationThumbprint := markdownConfigurationThumbprint t;
     markdownConfigurationPaths := markdownConfigurationPaths t;
     reloadTimeout := reloadTimeout t;
     hasModelListenerOnResourcePath := hasModelListenerOnResourcePath t |}.

Definition with_fileChangeListener (v : option Source) (t : Tracker) : Tracker :=
  with_listeners v (configFileChangeListener t) (themeChangeListener t)
    (editorInputChangeListener t) t.

Definition with_configFileChangeListener (v : option Source) (t : Tracker) : Tracker :=
  with_listeners (fileChangeListener t) v (themeChangeListener t)
    (editorInputChangeListener t) t.

Definition with_themeChangeListener (v : option Source) (t : Tracker) : Tracker :=
  with_listeners (fileChangeListener t) (configFileChangeListener t) v
    (editorInputChangeListener t) t.

Definition with_editorInputChangeListener (v : option Source) (t : Tracker) : Tracker :=
  with_listeners (fileChangeListener t) (configFileChangeListener t)
    (themeChangeListener t) v t.

Definition with_thumbprint (v : jsstring) (t : Tracker) : Tracker :=
  {| fileChangeListener := fileChangeListener t;
     configFileChangeListener := configFileChangeListener t;
     themeChangeListener := themeChangeListener t;
     editorInputChangeListener := editorInputChangeListener t;
     markdownConfigurationThumbprint := v;
     markdownConfigurationPaths := markdownConfigurationPaths t;
     reloadTimeout := reloadTimeout t;
     hasModelListenerOnResourcePath := hasModelListenerOnResourcePath t |}.

Definition with_paths (v : list string) (t : Tracker) : Tracker :=
  {| fileChangeListener := fileChangeListener t;
     configFileChangeListener := configFileChangeListener t;
     themeChangeListener := themeChangeListener t;
     editorInputChangeListener := editorInputChangeListener t;
     markdownConfigurationThumbprint := markdownConfigurationThumbprint t;
     markdownConfigurationPaths := v;
     reloadTimeout := reloadTimeout t;
     hasModelListenerOnResourcePath := hasModelListenerOnResourcePath t |}.

Definition with_reloadTimeout (v : option nat) (t : Tracker) : Tracker :=
  {| fileChangeListener := fileChangeListener t;
     configFileChangeListener := configFileChangeListener t;
     themeChangeListener := themeChangeListener t;
     editorInputChangeListener := editorInputChangeListener t;
     markdownConfigurationThumbprint := markdownConfigurationThumbprint t;
     markdownConfigurationPaths := markdownConfigurationPaths t;
     reloadTimeout := v;
     hasModelListenerOnResourcePath := hasModelListenerOnResourcePath t |}.

Definition with_flags (v : gmap string bool) (t : Tracker) : Tracker :=
  {| fileChangeListener := fileChangeListener t;
     configFileChangeListener := configFileChangeListener t;
     themeChangeListener := themeChangeListener t;
     editorInputChangeListener := editorInputChangeListener t;
     markdownConfigurationThumbprint := markdownConfigurationThumbprint t;
     markdownConfigurationPaths := markdownConfigurationPaths t;
     reloadTimeout := reloadTimeout t;
     hasModelListenerOnResourcePath := v |}.

Definition with_registered (v : list Source) (h : Host) : Host :=
  {| registered := v; timers := timers h; nextTimer := nextTimer h;
     now := now h; activeInput := activeInput h;
     visibleEditors := visibleEditors h; models := models h;
     configuration := configuration h; theme := theme h |}.

Definition with_timers (v : list Timer) (n : nat) (h : Host) : Host :=
  {| registered := registered h; timers := v; nextTimer := n;
     now := now h; activeInput := activeInput h;
     visibleEditors := visibleEditors h; models := models h;
     configuration := configuration h; theme := theme h |}.

Definition with_now (v : nat) (h : Host) : Host :=
  {| registered := registered h; timers := timers h; nextTimer := nextTimer h;
     now := v; activeInput := activeInput h;
     visibleEditors := visibleEditors h; models := models h;
     configuration := configuration h; theme := theme h |}.

Definition with_editors (a : option EditorInput) (v : list Editor) (h : Host) : Host :=
  {| registered := registered h; timers := timers h; nextTimer := nextTimer h;
     now := now h; activeInput := a; visibleEditors := v; models := models h;
     configuration := configuration h; theme := theme h |}.

Definition with_models (v : gset string) (h : Host) : Host :=
  {| registered := registered h; timers := timers h; nextTimer := nextTimer h;
     now := now h; activeInput := activeInput h;
     visibleEditors := visibleEditors h; models := v;
     configuration := configuration h; theme := theme h |}.

Definition with_toUnbind (v : list Subscription) (c : Closure) : Closure :=
  {| markdownResource := markdownResource c; boundInput := boundInput c;
     toUnbind := v |}.

(** ** The monad of methods *)

(** A method either returns a value or throws, and in both cases leaves
    a world behind. *)
Inductive Outcome (A : Type) : Type :=
| Returned (a : A) (w : World)
| Thrown (err : string) (w : World).
Arguments Returned {A} a w.
Arguments Thrown {A} err w.

Definition M (A : Type) : Type := World -> Outcome A.

Definition ret {A} (a : A) : M A := fun w => Returned a w.

Definition bind {A B} (m : M A) (k : A -> M B) : M B :=
  fun w =>
    match m w with
    | Returned a w' => k a w'
    | Thrown e w' => Thrown e w'
    end.

Definition throw {A} (err : string) : M A := fun w => Thrown err w.
Definition gets {A} (f : World -> A) : M A := fun w => Returned (f w) w.
Definition modify (f : World -> World) : M unit := fun w => Returned tt (f w).

Declare Scope method_scope.
Delimit Scope method_scope with method.
Notation "'let*' x ':=' m 'in' k" := (bind m (fun x => k))
  (at level 10, x name, m at level 100, k at level 200) : method_scope.
Notation "m '>>' k" := (bind m (fun _ => k))
  (at level 90, right associativity) : method_scope.
Local Open Scope method_scope.

Definition when (b : bool) (m : M unit) : M unit := if b then m else ret tt.

Fixpoint forEach {A} (l : list A) (f : A -> M unit) : M unit :=
  match l with
  | [] => ret tt
  | x :: rest => f x >> forEach rest f
  end.

(** The world an outcome leaves behind. *)
Definition world_of {A} (o : Outcome A) : World :=
  match o with Returned _ w => w | Thrown _ w => w end.

(** Record a call into a service, stamped with the clock. *)
Definition call (e : Effect) : M unit :=
  modify (fun w =>
    {| tracker := tracker w; closures := closures w; host := host w;
       trace := trace w ++ [(now (host w), e)] |}).

(** Reading a property of a value throws on [undefined] and [null]. *)
Definition getProperty (v : jsval) (name : string) : M jsval :=
  match v with
  | JUndefined | JNull => throw "TypeError"
  | JObj fields => ret (lookup_field name fields)
  | _ => ret JUndefined
  end.

(** ** The methods of [MarkdownFileTracker] *)

(** [RELOAD_MARKDOWN_DELAY] (line 36). *)
Definition RELOAD_MARKDOWN_DELAY : nat := 300.

(** Truthiness of a timeout handle: [undefined] and [0] are falsy. *)
Definition handle_truthy (h : option nat) : bool :=
  match h with Some (S _) => true | _ => false end.

(** Truthiness of an entry of [hasModelListenerOnResourcePath]. *)
Definition flag_truthy (f : option bool) : bool :=
  match f with Some true => true | _ => false end.

(** The elements of an array value. *)
Definition array_items (v : jsval) : list string :=
  match v with JArr items => items | _ => [] end.

(** [window.setTimeout]: handles are handed out in increasing order. *)
Definition setTimeout (closure : nat) (delay : nat) : M nat :=
  let* h := gets host in
  let id := nextTimer h in
  modify (set_host (with_timers
    (timers h ++ [{| timer_id := id; timer_due := now h + delay;
                     timer_closure := closure |}]) (S id))) >>
  call (SetTimeout id delay) >>
  ret id.

(** [window.clearTimeout]. *)
Definition clearTimeout (id : nat) : M unit :=
  modify (set_host (fun h =>
    with_timers (List.filter (fun tm => negb (Nat.eqb (timer_id tm) id)) (timers h))
      (nextTimer h) h)) >>
  call (ClearTimeout id).

(** Registering with one of the four event sources returns a disposable. *)
Definition addListener (src : Source) : M (option Source) :=
  modify (set_host (fun h => with_registered (registered h ++ [src]) h)) >>
  call (AddListener src) >>
  ret (Some src).

(** [IDisposable.dispose] of such a registration. *)
Definition disposeListener (src : Source) : M unit :=
  modify (set_host (fun h =>
    with_registered (List.filter (fun s => negb (bool_decide (s = src))) (registered h)) h)) >>
  call (DisposeListener src).

Section Methods.
Context `{Services}.

(** [configureMode] (lines 119-124). *)
Definition configureMode (theme : string) : M unit :=
  when (truthy (JStr theme))
    (let baseTheme := getBaseThemeId theme in
     call (ConfigureMode "text/x-web-markdown" baseTheme)).

(** The test of lines 177-179 on one visible editor. *)
Definition isReloadTarget (resource : option string) (editor : Editor) : bool :=
  match editor_input editor with
  | Some input =>
      match input_markdown input with
      | Some inputResource =>
          editor_iframe editor &&
          match resource with
          | None => true
          | Some r => String.eqb r inputResource
          end
      | None => false
      end
  | None => false
  end.

(** The [forEach] of lines 174-184, threading the local [didReload]. *)
Fixpoint reloadEach (clearIFrame : bool) (resource : option string)
    (editors : list Editor) (didReload : bool) : M bool :=
  match editors with
  | [] => ret didReload
  | editor :: rest =>
      if isReloadTarget resource editor then
        call (EditorReload (editor_id editor) clearIFrame) >>
        reloadEach clearIFrame resource rest true
      else reloadEach clearIFrame resource rest didReload
  end.

(** [reloadMarkdownEditors] (lines 170-187). *)
Definition reloadMarkdownEditors (clearIFrame : bool) (resource : option string) : M bool :=
  call (ReloadMarkdownEditors clearIFrame resource) >>
  let* editors := gets (fun w => visibleEditors (host w)) in
  reloadEach clearIFrame resource editors false.

(** [readMarkdownConfiguration] (lines 138-160). *)
Definition readMarkdownConfiguration (languageConfiguration : jsval) : M bool :=
  let* oldMarkdownConfigurationThumbprint :=
    gets (fun w => markdownConfigurationThumbprint (tracker w)) in
  (* Reset old *)
  modify (set_tracker (with_thumbprint SNull)) >>
  modify (set_tracker (with_paths [])) >>
  let* newMarkdownConfigurationThumbprint :=
    if truthy languageConfiguration then
      let* markdownConfiguration := getProperty languageConfiguration "markdown" in
      if truthy markdownConfiguration then
        let* styles := getProperty markdownConfiguration "styles" in
        if isArray styles then
          modify (set_tracker (with_paths
            (map (fun style => makePosixAbsolute (normalize style))
                 (array_items styles)))) >>
          ret (SStr (join_empty (array_items styles)))
        else ret SUndefined
      else ret SUndefined
    else ret SUndefined in
  (* Remember as current *)
  modify (set_tracker (with_thumbprint newMarkdownConfigurationThumbprint)) >>
  ret (strict_neq oldMarkdownConfigurationThumbprint newMarkdownConfigurationThumbprint).

(** [onConfigFileChange] (lines 130-136); the argument is [e.config]. *)
Definition onConfigFileChange (config : jsval) : M unit :=
  let* changed := readMarkdownConfiguration config in
  if changed then reloadMarkdownEditors true None >> ret tt else ret tt.

(** [paths.map(p => contextService.toResource(p))] of line 165. *)
Fixpoint resolveAll (paths : list string) : M (list (option string)) :=
  match paths with
  | [] => ret []
  | p :: rest =>
      call (ToResource p) >>
      let* others := resolveAll rest in
      ret (toResource p :: others)
  end.

(** [onFileChanges] (lines 162-168). *)
Definition onFileChanges (e : FileChangesEvent) : M unit :=
  let* paths := gets (fun w => markdownConfigurationPaths (tracker w)) in
  if negb (Nat.eqb (length paths) 0) then
    let* resources := resolveAll paths in
    if containsAny e resources UPDATED
    then reloadMarkdownEditors true None >> ret tt
    else ret tt
  else ret tt.

(** The handler of theme changes (lines 77-80). *)
Definition onDidThemeChange (themeId : string) : M unit :=
  configureMode themeId >>
  reloadMarkdownEditors true None >>
  ret tt.

(** [unbind] (lines 90-94) of the closure with index [closure]. *)
Definition unbind (closure : nat) (resource : string) : M unit :=
  modify (set_closures (alter (with_toUnbind []) closure)) >>
  modify (set_tracker (fun t =>
    with_flags (<[resource := false]> (hasModelListenerOnResourcePath t)) t)).

(** The callback handed to [setTimeout] (lines 102-106). *)
Definition onReloadTimeout (closure : nat) (resource : string) : M unit :=
  let* didReload := reloadMarkdownEditors false (Some resource) in
  if negb didReload then unbind closure resource else ret tt.

(** The content listener (lines 97-107) of the closure with index [closure]. *)
Definition onDidChangeContent (closure : nat) : M unit :=
  let* pending := gets (fun w => reloadTimeout (tracker w)) in
  (if handle_truthy pending
   then clearTimeout (default 0 pending)
   else ret tt) >>
  let* id := setTimeout closure RELOAD_MARKDOWN_DELAY in
  modify (set_tracker (with_reloadTimeout (Some id))).

(** [toUnbind.push(...)]. *)
Definition push (closure : nat) (s : Subscription) : M unit :=
  modify (set_closures (alter (fun c => with_toUnbind (toUnbind c ++ [s]) c) closure)).

(** [onEditorsChanged] (lines 83-117). *)
Definition onEditorsChanged : M unit :=
  let* input := gets (fun w => activeInput (host w)) in
  match input with
  | Some input =>
      match input_markdown input with
      | Some resource =>
          let* editorModel := gets (fun w => bool_decide (resource ∈ models (host w))) in
          let* flag := gets (fun w => hasModelListenerOnResourcePath (tracker w) !! resource) in
          if editorModel && negb (flag_truthy flag) then
            (* let toUnbind = [] *)
            let* closure := gets (fun w => length (closures w)) in
            modify (set_closures (fun cs => (cs ++
              [{| markdownResource := resource; boundInput := input_id input;
                  toUnbind := [] |}])%list)) >>
            push closure ContentListener >>
            (* Mark as being listened *)
            modify (set_tracker (fun t =>
              with_flags (<[resource := true]> (hasModelListenerOnResourcePath t)) t)) >>
            (* Unbind when input or model gets disposed *)
            push closure InputDisposeListener >>
            push closure ModelDisposeListener
          else ret tt
      | None => ret tt
      end
  | None => ret tt
  end.

(** [registerListeners] (lines 66-81). *)
Definition registerListeners : M unit :=
  let* l := addListener FileChangesSource in
  modify (set_tracker (with_fileChangeListener l)) >>
  let* l := addListener ConfigurationSource in
  modify (set_tracker (with_configFileChangeListener l)) >>
  let* l := addListener EditorsChangedSource in
  modify (set_tracker (with_editorInputChangeListener l)) >>
  call GetConfiguration >>
  let* config := gets (fun w => configuration (host w)) in
  readMarkdownConfiguration config >>
  let* l := addListener ThemeSource in
  modify (set_tracker (with_themeChangeListener l)).

(** The constructor (lines 47-64). *)
Definition constructor : M unit :=
  modify (set_tracker (with_paths [])) >>
  modify (set_tracker (with_flags ∅)) >>
  let* current := gets (fun w => theme (host w)) in
  configureMode current >>
  registerListeners.

(** [dispose] (lines 189-204). *)
Definition dispose : M unit :=
  let* l := gets (fun w => fileChangeListener (tracker w)) in
  match l with
  | Some d => disposeListener d >> modify (set_tracker (with_fileChangeListener None))
  | None => ret tt
  end >>
  let* l := gets (fun w => configFileChangeListener (tracker w)) in
  match l with
  | Some d => disposeListener d >> modify (set_tracker (with_configFileChangeListener None))
  | None => ret tt
  end >>
  let* l := gets (fun w => editorInputChangeListener (tracker w)) in
  match l with
  | Some d => disposeListener d >> modify (set_tracker (with_editorInputChangeListener None))
  | None => ret tt
  end.

(** ** The host's event loop *)

(** The closures (by index, from [i] on) that hold subscription [s] and
    satisfy [sel]: the listeners an emitter calls. *)
Fixpoint subscribersFrom (i : nat) (s : Subscription) (sel : Closure -> bool)
    (cs : list Closure) : list (nat * string) :=
  match cs with
  | [] => []
  | c :: rest =>
      if sel c && bool_decide (s ∈ toUnbind c)
      then (i, markdownResource c) :: subscribersFrom (S i) s sel rest
      else subscribersFrom (S i) s sel rest
  end.

Definition subscribers (s : Subscription) (sel : Closure -> bool) : M (list (nat * string)) :=
  gets (fun w => subscribersFrom 0 s sel (closures w)).

Definition onResource (r : string) (c : Closure) : bool :=
  String.eqb (markdownResource c) r.

Definition onInput (i : nat) (c : Closure) : bool :=
  Nat.eqb (boundInput c) i.

(** The pending timer that is due first (the oldest one of several). *)
Fixpoint earliest (l : list Timer) : option Timer :=
  match l with
  | [] => None
  | tm :: rest =>
      match earliest rest with
      | Some tm' => if timer_due tm' <? timer_due tm then Some tm' else Some tm
      | None => Some tm
      end
  end.

(** Run the callbacks of the timers due by [t], in the order they are due. *)
Fixpoint runTimers (fuel : nat) (t : nat) : M unit :=
  match fuel with
  | 0 => ret tt
  | S fuel' =>
      let* pending := gets (fun w => timers (host w)) in
      match earliest pending with
      | Some tm =>
          if timer_due tm <=? t then
            modify (set_host (fun h =>
              with_now (Nat.max (now h) (timer_due tm))
                (with_timers
                   (List.filter (fun x => negb (Nat.eqb (timer_id x) (timer_id tm))) (timers h))
                   (nextTimer h) h))) >>
            let* cs := gets closures in
            match cs !! timer_closure tm with
            | Some c => onReloadTimeout (timer_closure tm) (markdownResource c)
            | None => ret tt
            end >>
            runTimers fuel' t
          else ret tt
      | None => ret tt
      end
  end.

(** What the host can do between two runs of the tracker's code. *)
Inductive Event : Type :=
| FileChanged (e : FileChangesEvent)
| ConfigurationUpdated (config : jsval)
| ThemeChanged (themeId : string)
| EditorsChanged
| ContentChanged (resource : string)
| InputDisposed (input : nat)
| ModelWillDispose (resource : string)
| ModelCreated (resource : string)
| EditorsShown (active : option EditorInput) (visible : list Editor)
| ClockAdvanced (t : nat)
| TrackerDisposed.

Definition isRegistered (src : Source) : M bool :=
  gets (fun w => bool_decide (src ∈ registered (host w))).

(** Dispatch of one event to the listeners that are installed for it. *)
Definition deliver (ev : Event) : M unit :=
  match ev with
  | FileChanged e =>
      let* on := isRegistered FileChangesSource in
      if on then onFileChanges e else ret tt
  | ConfigurationUpdated config =>
      let* on := isRegistered ConfigurationSource in
      if on then onConfigFileChange config else ret tt
  | ThemeChanged themeId =>
      let* on := isRegistered ThemeSource in
      if on then onDidThemeChange themeId else ret tt
  | EditorsChanged =>
      let* on := isRegistered EditorsChangedSource in
      if on then onEditorsChanged else ret tt
  | ContentChanged r =>
      let* ls := subscribers ContentListener (onResource r) in
      forEach ls (fun l => onDidChangeContent (fst l))
  | InputDisposed i =>
      let* ls := subscribers InputDisposeListener (onInput i) in
      forEach ls (fun l => unbind (fst l) (snd l))
  | ModelWillDispose r =>
      let* ls := subscribers ModelDisposeListener (onResource r) in
      forEach ls (fun l => unbind (fst l) (snd l)) >>
      modify (set_host (fun h => with_models (models h ∖ {[r]}) h))
  | ModelCreated r =>
      modify (set_host (fun h => with_models ({[r]} ∪ models h) h))
  | EditorsShown active visible =>
      modify (set_host (with_editors active visible))
  | ClockAdvanced t =>
      let* n := gets (fun w => length (timers (host w))) in
      runTimers n t >>
      modify (set_host (fun h => with_now (Nat.max (now h) t) h))
  | TrackerDisposed => dispose
  end.

(** Handlers run to completion; an exception ends the handler where it
    is thrown and the loop goes on. *)
Definition step (w : World) (ev : Event) : World := world_of (deliver ev w).

Definition run (w : World) (evs : list Event) : World := fold_left step evs w.

(** The tracker before its constructor has run, in a given host. *)
Definition blank (h : Host) : World :=
  {| tracker :=
       {| fileChangeListener := None; configFileChangeListener := None;
          themeChangeListener := None; editorInputChangeListener := None;
          markdownConfigurationThumbprint := SUndefined;
          markdownConfigurationPaths := [];
          reloadTimeout := None;
          hasModelListenerOnResourcePath := ∅ |};
     closures := [];
     host := h;
     trace := [] |}.

(** [new MarkdownFileTracker(...)]. *)
Definition create (h : Host) : World := world_of (constructor (blank h)).

End Methods.

(** A host at start-up: nothing registered, no timer, clock at 0. *)
Definition startup (config : jsval) (themeId : string) (ms : gset string)
    (active : option EditorInput) (visible : list Editor) : Host :=
  {| registered := []; timers := []; nextTimer := 1; now := 0;
     activeInput := active; visibleEditors := visible; models := ms;
     configuration := config; theme := themeId |}.

(** Projections of a trace. *)
Definition effects (w : World) : list Effect := map snd (trace w).

Definition isReloadCall (e : Effect) : bool :=
  match e with ReloadMarkdownEditors _ _ => true | _ => false end.

Definition isConfigureMode (e : Effect) : bool :=
  match e with ConfigureMode _ _ => true | _ => false end.

(** ** Vocabulary of the statements *)

(** The world after the tracker has made the calls [es] in a row. *)
Definition logged (es : list Effect) (w : World) : World :=
  {| tracker := tracker w; closures := closures w; host := host w;
     trace := trace w ++ map (pair (now (host w))) es |}.

(** The [IFrameEditor.reload] calls one run of [reloadMarkdownEditors] makes. *)
Definition editorReloads (clearIFrame : bool) (resource : option string)
    (editors : list Editor) : list Effect :=
  map (fun e => EditorReload (editor_id e) clearIFrame)
      (List.filter (isReloadTarget resource) editors).

(** The style list a configuration tree declares at [markdown.styles],
    if it declares one that is an array. *)
Definition stylesOf (config : jsval) : option (list string) :=
  match config with
  | JObj fields =>
      match lookup_field "markdown" fields with
      | JObj section =>
          match lookup_field "styles" section with
          | JArr items => Some items
          | _ => None
          end
      | _ => None
      end
  | _ => None
  end.

(** The fingerprint of a configuration: its style list joined without a
    separator, [undefined] when it declares no style list. *)
Definition thumbprintOf (config : jsval) : jsstring :=
  match stylesOf config with
  | Some items => SStr (join_empty items)
  | None => SUndefined
  end.

(** The value found under a property name, [undefined] where there is
    none. *)
Definition field (v : jsval) (name : string) : jsval :=
  match v with
  | JObj fields => lookup_field name fields
  | _ => JUndefined
  end.

(** A configuration that is absent, that has no [markdown.styles], or
    whose [markdown.styles] is not an array. *)
Inductive DegradedConfiguration : jsval -> Prop :=
| ConfigurationAbsent config :
    config = JUndefined \/ config = JNull ->
    DegradedConfiguration config
| StyleListLacking config :
    field (field config "markdown") "styles" = JUndefined ->
    DegradedConfiguration config
| StyleListNotArray config :
    isArray (field (field config "markdown") "styles") = false ->
    DegradedConfiguration config.

(** A file-change event holds an UPDATED change for resource [r]. *)
Definition hasUpdated (e : FileChangesEvent) (r : string) : Prop :=
  exists c, c ∈ e /\ change_resource c = r /\ change_type c = UPDATED.

(** In a sequence of effects, the configuration is read before any
    listener is registered. *)
Definition configurationReadBeforeListeners (tr : list Effect) : Prop :=
  forall i j src,
    tr !! i = Some (AddListener src) ->
    tr !! j = Some GetConfiguration ->
    j < i.

(** The debounce invariant: handles are positive, at most one timeout
    is pending, and a pending one is the one [reloadTimeout] names. *)
Definition TimersOk (w : World) : Prop :=
  0 < nextTimer (host w) /\
  match timers (host w) with
  | [] => True
  | [tm] => reloadTimeout (tracker w) = Some (timer_id tm) /\ 0 < timer_id tm
  | _ => False
  end.

(** [w'] has the pending timeouts, the handle counter and the
    [reloadTimeout] of [w]. *)
Definition Untimed (w w' : World) : Prop :=
  timers (host w') = timers (host w) /\
  nextTimer (host w') = nextTimer (host w) /\
  reloadTimeout (tracker w') = reloadTimeout (tracker w).

(** A method that returns normally and leaves the timeouts alone. *)
Definition Frames {A} (m : M A) : Prop :=
  forall w, exists a w', m w = Returned a w' /\ Untimed w w'.

(** The closures whose content listener is installed on the model of [r]. *)
Definition liveContentListeners (r : string) (w : World) : list (nat * string) :=
  subscribersFrom 0 ContentListener (onResource r) (closures w).

(** The world in which the timeout with handle [id] has just been
    scheduled for closure [b], after the tracker has made the calls [es]. *)
Definition scheduled (id b : nat) (es : list Effect) (w : World) : World :=
  logged es
    (set_tracker (with_reloadTimeout (Some id))
       (set_host (fun h =>
          with_timers [{| timer_id := id;
                          timer_due := now h + RELOAD_MARKDOWN_DELAY;
                          timer_closure := b |}] (S id) h) w)).

Definition isTimerCall (e : Effect) : bool :=
  match e with SetTimeout _ _ | ClearTimeout _ => true | _ => false end.

(** Content changes of the model of [r] at the instants [ts]. *)
Fixpoint burst (r : string) (ts : list nat) : list Event :=
  match ts with
  | [] => []
  | t :: rest => ClockAdvanced t :: ContentChanged r :: burst r rest
  end.

(** Each instant of [rest] comes less than the debounce delay after the
    one before it, starting from [t]. *)
Fixpoint closelySpaced (t : nat) (rest : list nat) : Prop :=
  match rest with
  | [] => True
  | t' :: rest' =>
      t <= t' /\ t' < t + RELOAD_MARKDOWN_DELAY /\ closelySpaced t' rest'
  end.

(** The reload calls among time-stamped trace entries. *)
Definition reloadCalls (entries : list (nat * Effect)) : list (nat * Effect) :=
  List.filter (fun entry => isReloadCall (snd entry)) entries.

(** After the content change at instant [t] of a burst that started in
    [w0]: one timeout is pending, due a full delay after [t], for a
    closure of document [r]; nothing has been reloaded since [w0]. *)
Definition Armed (r : string) (w0 w : World) (t : nat) : Prop :=
  TimersOk w /\
  now (host w) = t /\
  closures w = closures w0 /\
  visibleEditors (host w) = visibleEditors (host w0) /\
  (exists tm c,
     timers (host w) = [tm] /\
     timer_due tm = t + RELOAD_MARKDOWN_DELAY /\
     closures w0 !! timer_closure tm = Some c /\
     markdownResource c = r) /\
  (exists new, trace w = trace w0 ++ new /\ reloadCalls new = []).

(** The configuration tree [{markdown: {styles: l}}]. *)
Definition stylesConfiguration (l : list string) : jsval :=
  JObj [("markdown", JObj [("styles", JArr l)])].

Section Vocabulary.
Context `{Services}.

(** The tracker after a sequence of configuration-change events. *)
Definition deliverConfigurations (w : World) (configs : list jsval) : World :=
  fold_left (fun w config => world_of (onConfigFileChange config w)) configs w.

(** The snapshot of style paths taken from a configuration. *)
Definition pathsOf (config : jsval) : list string :=
  map (fun style => makePosixAbsolute (normalize style))
      (default [] (stylesOf config)).

(** The tracker after it has read a configuration. *)
Definition remember (config : jsval) (w : World) : World :=
  set_tracker (fun t => with_thumbprint (thumbprintOf config)
                          (with_paths (pathsOf config) t)) w.

(** What [onConfigFileChange] logs: nothing, or one full reload. *)
Definition configReload (config : jsval) (w : World) : list Effect :=
  if strict_neq (markdownConfigurationThumbprint (tracker w)) (thumbprintOf config)
  then ReloadMarkdownEditors true None ::
       editorReloads true None (visibleEditors (host w))
  else [].

(** The calls the constructor makes after it has configured the mode. *)
Definition registrationCalls : list Effect :=
  [AddListener FileChangesSource; AddListener ConfigurationSource;
   AddListener EditorsChangedSource; GetConfiguration; AddListener ThemeSource].

(** The world the constructor leaves behind in host [h]. *)
Definition constructed (h : Host) : World :=
  {| tracker :=
       {| fileChangeListener := Some FileChangesSource;
          configFileChangeListener := Some ConfigurationSource;
          themeChangeListener := Some ThemeSource;
          editorInputChangeListener := Some EditorsChangedSource;
          markdownConfigurationThumbprint := thumbprintOf (configuration h);
          markdownConfigurationPaths := pathsOf (configuration h);
          reloadTimeout := None;
          hasModelListenerOnResourcePath := ∅ |};
     closures := [];
     host := with_registered
               (registered h ++ [FileChangesSource; ConfigurationSource;
                                 EditorsChangedSource; ThemeSource]) h;
     trace := map (pair (now h))
                ((if String.eqb (theme h) "" then []
                  else [ConfigureMode "text/x-web-markdown" (getBaseThemeId (theme h))])
                 ++ registrationCalls) |}.

(** The world after the clock has reached [t] and the only pending
    timeout [tm], of closure [c], has fired on the way. *)
Definition fired (tm : Timer) (c : Closure) (t : nat) (w : World) : World :=
  let r := markdownResource c in
  let w1 := set_host (fun h =>
              with_now (Nat.max (now h) (timer_due tm))
                (with_timers [] (nextTimer h) h)) w in
  let w2 := logged (ReloadMarkdownEditors false (Some r) ::
                    editorReloads false (Some r) (visibleEditors (host w))) w1 in
  let w3 := if existsb (isReloadTarget (Some r)) (visibleEditors (host w))
            then w2
            else world_of (unbind (timer_closure tm) r w2) in
  set_host (fun h => with_now (Nat.max (now h) t) h) w3.

End Vocabulary.

(** ** Sample data for the worked examples *)

Definition sampleServices : Services :=
  {| getBaseThemeId := fun themeId => if String.prefix "hc" themeId then "hc-black" else themeId;
     normalize := fun p => p;
     makePosixAbsolute := fun p => String.append "/" p;
     toResource := fun p => Some (String.append "file://" p) |}.

Definition sampleDocument : string := "file:///readme.md".

Definition samplePreview : EditorInput :=
  {| input_id := 1; input_markdown := Some sampleDocument |}.

Definition sampleReopenedPreview : EditorInput :=
  {| input_id := 2; input_markdown := Some sampleDocument |}.

Definition sampleEditor (input : EditorInput) : Editor :=
  {| editor_id := 7; editor_input := Some input; editor_iframe := true |}.

Definition sampleHost : Host :=
  startup (stylesConfiguration ["a.css"]) "vs-dark" {[sampleDocument]} None [].

(** A freshly constructed tracker. *)
Definition sampleWorld : World := create (H := sampleServices) sampleHost.

Definition sampleTextInput : EditorInput :=
  {| input_id := 3; input_markdown := None |}.

Definition sampleTextEditor : Editor :=
  {| editor_id := 8; editor_input := Some sampleTextInput; editor_iframe := false |}.

(** The preview of the sample document is opened and becomes active. *)
Definition previewOpened : list Event :=
  [EditorsShown (Some samplePreview) [sampleEditor samplePreview]; EditorsChanged].

(** The sample tracker listening to the sample document. *)
Definition sampleListening : World :=
  run (H := sampleServices) sampleWorld previewOpened.

(** The sample document has been edited and its preview has then been
    covered by a text editor; the timeout of the edit is pending. *)
Definition samplePreviewClosed : World :=
  run (H := sampleServices) sampleListening
    [ClockAdvanced 1000; ContentChanged sampleDocument;
     EditorsShown (Some sampleTextInput) [sampleTextEditor]].

(** A tracker constructed while no configuration is available. *)
Definition sampleUnconfigured : World :=
  create (H := sampleServices) (startup JNull "vs-dark" ∅ None []).

(** The style sheet of the sample configuration has been saved. *)
Definition sampleStyleSaved : FileChangesEvent :=
  [{| change_resource := "file:///a.css"; change_type := UPDATED |}].

(** The document is edited; within the debounce delay its preview is
    closed (the input is disposed), opened again and covered by a text
    editor; the timeout of the edit fires; the preview is uncovered. *)
Definition staleTimeoutScenario : list Event :=
  previewOpened ++
  [ClockAdvanced 1000; ContentChanged sampleDocument;
   InputDisposed 1;
   EditorsShown (Some sampleReopenedPreview) [sampleEditor sampleReopenedPreview];
   EditorsChanged;
   EditorsShown (Some sampleTextInput) [sampleTextEditor];
   EditorsChanged;
   ClockAdvanced 1300;
   EditorsShown (Some sampleReopenedPreview) [sampleEditor sampleReopenedPreview];
   EditorsChanged].


(** ** Further vocabulary *)

(** [getId] (lines 126-128). *)
Definition getId : string := "vs.markdown.filetracker".

(** An editor that [reloadMarkdownEditors] reloads: an iframe editor
    whose input is a markdown input, of the given resource if one is
    given. *)
Definition ReloadTarget (resource : option string) (e : Editor) : Prop :=
  exists input r,
    editor_input e = Some input /\
    input_markdown input = Some r /\
    editor_iframe e = true /\
    (resource = None \/ resource = Some r).

(** Closure [c] is among the listeners an emitter of subscription [s]
    calls for the closures selected by [sel]. *)
Definition releasing (s : Subscription) (sel : Closure -> bool) (c : Closure) : bool :=
  sel c && bool_decide (s ∈ toUnbind c).

(** What [unbind], called through such a listener, makes of a closure. *)
Definition release (s : Subscription) (sel : Closure -> bool) (c : Closure) : Closure :=
  if releasing s sel c then with_toUnbind [] c else c.

(** The listener map after the [unbind] of every such closure of [cs]. *)
Definition clearFlags (s : Subscription) (sel : Closure -> bool)
    (cs : list Closure) (flags : gmap string bool) : gmap string bool :=
  fold_left (fun fl c =>
               if releasing s sel c then <[markdownResource c := false]> fl else fl)
            cs flags.

(** The world after these [unbind] calls on the closures [cs] that
    follow the closures [pre]. *)
Definition released (s : Subscription) (sel : Closure -> bool)
    (pre cs : list Closure) (w : World) : World :=
  set_closures (fun _ => pre ++ map (release s sel) cs)
    (set_tracker (fun t =>
       with_flags (clearFlags s sel cs (hasModelListenerOnResourcePath t)) t) w).

(** The world after [onEditorsChanged] has attached the listeners of a
    new closure for the active preview [input] of document [r]. *)
Definition attached (input : EditorInput) (r : string) (w : World) : World :=
  set_tracker (fun t =>
      with_flags (<[r := true]> (hasModelListenerOnResourcePath t)) t)
    (set_closures (fun cs => cs ++
       [{| markdownResource := r; boundInput := input_id input;
           toUnbind := [ContentListener; InputDisposeListener;
                        ModelDisposeListener] |}]) w).

(** The sample tracker with the sample preview shown but not yet
    announced by an editor-set change. *)
Definition samplePreviewShown : World :=
  step (H := sampleServices) sampleWorld
    (EditorsShown (Some samplePreview) [sampleEditor samplePreview]).

(** The sample document has been edited at 1000 ms while its preview is
    visible; the timeout of the edit is pending. *)
Definition sampleEdited : World :=
  run (H := sampleServices) sampleListening
    [ClockAdvanced 1000; ContentChanged sampleDocument].

(** The subscriptions [onEditorsChanged] makes for a closure. *)
Definition allSubscriptions : list Subscription :=
  [ContentListener; InputDisposeListener; ModelDisposeListener].

(** The bookkeeping of document listeners is consistent: a closure
    holds all of its subscriptions or none; two closures with a content
    listener are closures of different documents; a document with a
    content listener is marked in [hasModelListenerOnResourcePath]; and
    the closure of a pending timeout still has its content listener. *)
Definition Consistent (w : World) : Prop :=
  (forall i c, closures w !! i = Some c ->
     toUnbind c = [] \/ toUnbind c = allSubscriptions) /\
  (forall i j ci cj,
     closures w !! i = Some ci -> closures w !! j = Some cj ->
     markdownResource ci = markdownResource cj ->
     ContentListener ∈ toUnbind ci -> ContentListener ∈ toUnbind cj ->
     i = j) /\
  (forall i c, closures w !! i = Some c -> ContentListener ∈ toUnbind c ->
     hasModelListenerOnResourcePath (tracker w) !! markdownResource c = Some true) /\
  (forall tm, tm ∈ timers (host w) ->
     exists c, closures w !! timer_closure tm = Some c /\
               ContentListener ∈ toUnbind c).

(** The disposal of an input or of a model. *)
Definition isDisposal (ev : Event) : bool :=
  match ev with
  | InputDisposed _ | ModelWillDispose _ => true
  | _ => false
  end.

Section Runs.
Context `{Services}.

(** In the run of [evs] from [w], inputs and models are disposed only
    while no timeout is pending. *)
Fixpoint quietDisposals (w : World) (evs : list Event) : Prop :=
  match evs with
  | [] => True
  | ev :: rest =>
      (isDisposal ev = true -> timers (host w) = []) /\
      quietDisposals (step w ev) rest
  end.

End Runs.

(** The preview of the sample document is opened, the document is
    edited twice, the reload happens, and only then the preview is
    closed and opened again. *)
Definition quietScenario : list Event :=
  previewOpened ++
  [ClockAdvanced 1000; ContentChanged sampleDocument;
   ClockAdvanced 1200; ContentChanged sampleDocument;
   ClockAdvanced 1500;
   InputDisposed 1;
   EditorsShown (Some sampleReopenedPreview) [sampleEditor sampleReopenedPreview];
   EditorsChanged;
   ClockAdvanced 2000; ContentChanged sampleDocument].

Definition sampleOtherDocument : string := "file:///notes.md".

Definition sampleOtherPreview : EditorInput :=
  {| input_id := 4; input_markdown := Some sampleOtherDocument |}.

(** A tracker listening to two documents. *)
Definition sampleTwoListening : World :=
  run (H := sampleServices)
    (create (H := sampleServices)
       (startup (stylesConfiguration ["a.css"]) "vs-dark"
          ({[sampleDocument]} ∪ {[sampleOtherDocument]}) None []))
    [EditorsShown (Some samplePreview) [sampleEditor samplePreview];
     EditorsChanged;
     EditorsShown (Some sampleOtherPreview) [sampleEditor sampleOtherPreview];
     EditorsChanged].

(** The closure the sample preview gets from [onEditorsChanged]. *)
Definition sampleClosure : Closure :=
  {| markdownResource := sampleDocument; boundInput := 1;
     toUnbind := allSubscriptions |}.

(** The timeout of the edit at 1000 ms. *)
Definition sampleTimer : Timer :=
  {| timer_id := 1; timer_due := 1300; timer_closure := 0 |}.

(** ** The configuration fingerprint as the specification words it *)

(** The joined style-path list of a configuration in the words of the
    specification: a configuration that is absent, or whose style list
    is missing or not an array, counts as having the empty style list. *)
Definition joinedStyleList (config : jsval) : string :=
  join_empty (default [] (stylesOf config)).

Section StatedFingerprint.
Context `{Services}.

(** The reload rule in those words: after the configuration [previous]
    has been handled, handling [config] calls
    [reloadMarkdownEditors(true)] exactly when the joined style-path
    lists of the two configurations differ. *)
Definition reloadsIffJoinedListDiffers (w0 : World) (previous config : jsval) : Prop :=
  let w := world_of (onConfigFileChange previous w0) in
  let w' := world_of (onConfigFileChange config w) in
  ReloadMarkdownEditors true None ∈ drop (length (effects w)) (effects w') <->
  joinedStyleList config <> joinedStyleList previous.

End StatedFingerprint.
(** ** Reasoning about methods *)

(** Unfold the plumbing of the monad. *)
Ltac mrun :=
  cbv [bind ret gets modify throw when getProperty truthy isArray array_items].

Lemma logged_nil w : logged [] w = w.
Proof. destruct w; unfold logged; simpl. by rewrite app_nil_r. Qed.

Lemma logged_logged es1 es2 w :
  logged es2 (logged es1 w) = logged (es1 ++ es2) w.
Proof. unfold logged; simpl. by rewrite map_app, app_assoc. Qed.

Lemma call_logged e w : call e w = Returned tt (logged [e] w).
Proof. reflexivity. Qed.

Lemma effects_logged es w : effects (logged es w) = effects w ++ es.
Proof.
  unfold effects, logged; simpl. rewrite map_app, map_map; simpl.
  by rewrite map_id.
Qed.

Section MethodFacts.
Context `{Services}.

Lemma reloadEach_spec clearIFrame resource editors : forall didReload w,
  reloadEach clearIFrame resource editors didReload w =
  Returned (didReload || existsb (isReloadTarget resource) editors)
           (logged (editorReloads clearIFrame resource editors) w).
Proof.
  unfold editorReloads.
  induction editors as [|e rest IH]; intros didReload w; simpl.
  - by rewrite orb_false_r, logged_nil.
  - destruct (isReloadTarget resource e); simpl.
    + unfold bind at 1. rewrite call_logged, IH, logged_logged; simpl.
      by rewrite orb_true_r.
    + by rewrite IH.
Qed.

Lemma reloadMarkdownEditors_spec clearIFrame resource w :
  reloadMarkdownEditors clearIFrame resource w =
  Returned (existsb (isReloadTarget resource) (visibleEditors (host w)))
           (logged (ReloadMarkdownEditors clearIFrame resource ::
                    editorReloads clearIFrame resource (visibleEditors (host w))) w).
Proof.
  unfold reloadMarkdownEditors, bind. rewrite call_logged.
  unfold gets. rewrite reloadEach_spec, logged_logged. reflexivity.
Qed.

Lemma readMarkdownConfiguration_spec config w :
  readMarkdownConfiguration config w =
  Returned (strict_neq (markdownConfigurationThumbprint (tracker w))
                       (thumbprintOf config))
           (remember config w).
Proof.
  unfold readMarkdownConfiguration, remember, thumbprintOf, pathsOf.
  destruct config as [| |b|n|s|items|fields]; try reflexivity.
  - destruct b; reflexivity.
  - mrun. destruct (negb (n =? 0)%Z); reflexivity.
  - mrun. destruct (negb (String.eqb s "")); reflexivity.
  - mrun. simpl stylesOf.
    destruct (lookup_field "markdown" fields) as [| |b|n|s|items|section];
      try reflexivity.
    + destruct b; reflexivity.
    + destruct (negb (n =? 0)%Z); reflexivity.
    + destruct (negb (String.eqb s "")); reflexivity.
    + destruct (lookup_field "styles" section); reflexivity.
Qed.

Lemma onConfigFileChange_spec config w :
  onConfigFileChange config w =
  Returned tt (logged (configReload config w) (remember config w)).
Proof.
  unfold onConfigFileChange, bind at 1. rewrite readMarkdownConfiguration_spec.
  unfold configReload.
  destruct (strict_neq _ _).
  - unfold bind. rewrite reloadMarkdownEditors_spec. reflexivity.
  - by rewrite logged_nil.
Qed.

End MethodFacts.

(** ** Configuration changes *)

Lemma strict_neq_true a b : strict_neq a b = true <-> a <> b.
Proof.
  destruct a as [| |x], b as [| |y]; simpl; split; try congruence; try done.
  - intros Hne Heq. injection Heq as ->. by rewrite String.eqb_refl in Hne.
  - intros Hne. destruct (String.eqb_spec x y) as [->|]; [congruence | done].
Qed.

Lemma degraded_stylesOf config : DegradedConfiguration config -> stylesOf config = None.
Proof.
  intros [c [-> | ->] | c Hf | c Hf]; try reflexivity.
  - destruct c as [| | | | | |fields]; try reflexivity. simpl in *.
    destruct (lookup_field "markdown" fields) as [| | | | | |section]; try reflexivity.
    simpl in Hf. by rewrite Hf.
  - destruct c as [| | | | | |fields]; try reflexivity. simpl in *.
    destruct (lookup_field "markdown" fields) as [| | | | | |section]; try reflexivity.
    simpl in Hf. by destruct (lookup_field "styles" section).
Qed.

Section ConfigurationFacts.
Context `{Services}.

Lemma deliverConfigurations_snoc w history config :
  deliverConfigurations w (history ++ [config]) =
  world_of (onConfigFileChange config (deliverConfigurations w history)).
Proof. unfold deliverConfigurations. by rewrite fold_left_app. Qed.

Lemma stored_thumbprint_is_last w history :
  markdownConfigurationThumbprint (tracker (deliverConfigurations w history)) =
  match last history with
  | Some previous => thumbprintOf previous
  | None => markdownConfigurationThumbprint (tracker w)
  end.
Proof.
  destruct history as [|c rest] using rev_ind; [done|].
  rewrite deliverConfigurations_snoc, last_snoc, onConfigFileChange_spec.
  reflexivity.
Qed.

(** C1, as the code has it: whatever configuration-change events the
    tracker has handled before, handling a further one returns
    normally, reloads every open markdown preview (one call of
    [reloadMarkdownEditors(true)], no resource) exactly when the
    thumbprint of the new configuration differs from the stored one,
    and logs nothing otherwise; the thumbprint is the style list joined
    without separator when [markdown.styles] is an array and
    [undefined] otherwise, so a missing or non-array style list is told
    apart from the empty one; in both cases the new thumbprint and the
    new style paths are stored, so that the stored thumbprint is always
    the one of the preceding event. *)
Theorem config_change_reloads_iff_thumbprint_differs :
  forall (w0 : World) (history : list jsval) (config : jsval),
    let w := deliverConfigurations w0 history in
    let w' := world_of (onConfigFileChange config w) in
    let stored := markdownConfigurationThumbprint (tracker w) in
    onConfigFileChange config w = Returned tt w' /\
    trace w' = trace w ++ map (pair (now (host w)))
      (if strict_neq stored (thumbprintOf config)
       then ReloadMarkdownEditors true None ::
            editorReloads true None (visibleEditors (host w))
       else []) /\
    (ReloadMarkdownEditors true None ∈ drop (length (effects w)) (effects w') <->
     stored <> thumbprintOf config) /\
    markdownConfigurationThumbprint (tracker w') = thumbprintOf config /\
    markdownConfigurationPaths (tracker w') = pathsOf config /\
    stored = match last history with
             | Some previous => thumbprintOf previous
             | None => markdownConfigurationThumbprint (tracker w0)
             end.
Proof.
  intros w0 history config w w' stored. subst w' stored.
  rewrite onConfigFileChange_spec. cbn [world_of].
  split_and!; try reflexivity.
  - rewrite effects_logged. change (effects (remember config w)) with (effects w).
    rewrite drop_app_length, <- strict_neq_true. unfold configReload.
    destruct (strict_neq _ _).
    + split; [done | intros _; by left].
    + split; [by intros ?%elem_of_nil | done].
  - apply stored_thumbprint_is_last.
Qed.

(** The thumbprint tells a missing style list from an empty one: after
    a configuration with the empty style list, a configuration without
    style list reloads the previews, though the style paths stay empty. *)
Lemma missing_after_empty_styles_reloads w :
  let w1 := world_of (onConfigFileChange (stylesConfiguration []) w) in
  let w2 := world_of (onConfigFileChange JNull w1) in
  markdownConfigurationPaths (tracker w1) = [] /\
  markdownConfigurationPaths (tracker w2) = [] /\
  trace w2 = trace w1 ++
    map (pair (now (host w1)))
      (ReloadMarkdownEditors true None ::
       editorReloads true None (visibleEditors (host w1))).
Proof.
  intros w1 w2. subst w1 w2. rewrite !onConfigFileChange_spec. by split_and!.
Qed.

(** C9: a configuration-change event whose configuration is absent, has
    no [markdown.styles], or has a [markdown.styles] that is not an
    array is handled without an exception, and leaves the tracker with
    an empty list of style paths (and an [undefined] thumbprint). *)
Theorem degraded_configuration_gives_empty_styles :
  forall (w : World) (config : jsval),
    DegradedConfiguration config ->
    let w' := world_of (onConfigFileChange config w) in
    onConfigFileChange config w = Returned tt w' /\
    markdownConfigurationPaths (tracker w') = [] /\
    markdownConfigurationThumbprint (tracker w') = SUndefined.
Proof.
  intros w config Hd w'. subst w'.
  rewrite onConfigFileChange_spec. simpl.
  unfold pathsOf, thumbprintOf. by rewrite (degraded_stylesOf _ Hd).
Qed.

(** C10: the thumbprint is the style list joined without a separator,
    so the lists ["ab"] and ["a"; "b"], and the lists ["a"] and
    ["a"; ""], have the same thumbprint; a configuration change from
    the first to the second of such a pair logs nothing, hence reloads
    no preview, although the style list and the stored style paths
    change. *)
Theorem thumbprint_collision_hides_style_change :
  forall (w : World) (l1 l2 : list string),
    (l1 = ["ab"] /\ l2 = ["a"; "b"]) \/ (l1 = ["a"] /\ l2 = ["a"; ""]) ->
    let w1 := world_of (onConfigFileChange (stylesConfiguration l1) w) in
    let w2 := world_of (onConfigFileChange (stylesConfiguration l2) w1) in
    l1 <> l2 /\
    markdownConfigurationThumbprint (tracker w1) = SStr (join_empty l1) /\
    markdownConfigurationThumbprint (tracker w2) = SStr (join_empty l2) /\
    join_empty l1 = join_empty l2 /\
    trace w2 = trace w1 /\
    markdownConfigurationPaths (tracker w1) <> markdownConfigurationPaths (tracker w2).
Proof.
  intros w l1 l2 Hpair w1 w2. subst w1 w2.
  rewrite !onConfigFileChange_spec.
  destruct Hpair as [[-> ->] | [-> ->]]; simpl; split_and!;
    try reflexivity; try discriminate.
  all: try (unfold configReload; simpl; by rewrite app_nil_r).
  all: intros Heq; apply (f_equal length) in Heq; discriminate Heq.
Qed.

End ConfigurationFacts.

(** Witness of C9: the configuration [null] delivered to a fresh tracker. *)
Lemma degraded_configuration_gives_empty_styles_witness :
  DegradedConfiguration JNull /\
  markdownConfigurationPaths
    (tracker (world_of (onConfigFileChange (H := sampleServices) JNull sampleWorld))) = [].
Proof.
  split.
  - apply ConfigurationAbsent. by right.
  - apply (degraded_configuration_gives_empty_styles (H := sampleServices) sampleWorld JNull).
    apply ConfigurationAbsent. by right.
Defined.

(** Witness of C10: the pair ["ab"], ["a"; "b"] on a fresh tracker. *)
Lemma thumbprint_collision_hides_style_change_witness :
  trace (world_of (onConfigFileChange (H := sampleServices) (stylesConfiguration ["a"; "b"])
          (world_of (onConfigFileChange (H := sampleServices) (stylesConfiguration ["ab"]) sampleWorld)))) =
  trace (world_of (onConfigFileChange (H := sampleServices) (stylesConfiguration ["ab"]) sampleWorld)).
Proof.
  apply (thumbprint_collision_hides_style_change (H := sampleServices)
           sampleWorld ["ab"] ["a"; "b"]).
  left. split; reflexivity.
Defined.

(** ** File changes and theme changes *)

Lemma editorReloads_not_calls clearIFrame resource editors :
  List.filter isReloadCall (editorReloads clearIFrame resource editors) = [] /\
  List.filter isConfigureMode (editorReloads clearIFrame resource editors) = [].
Proof.
  unfold editorReloads.
  induction (List.filter (isReloadTarget resource) editors); simpl; auto.
Qed.

Section HandlerFacts.
Context `{Services}.

Lemma resolveAll_spec paths : forall w,
  resolveAll paths w = Returned (map toResource paths) (logged (map ToResource paths) w).
Proof.
  induction paths as [|p rest IH]; intros w; simpl.
  - by rewrite logged_nil.
  - unfold bind at 1. rewrite call_logged. unfold bind.
    by rewrite IH, logged_logged.
Qed.

Lemma containsAny_intro (e : FileChangesEvent) resources r :
  Some r ∈ resources -> hasUpdated e r -> containsAny e resources UPDATED = true.
Proof.
  intros Hin (c & Hc & Hr & Ht). unfold containsAny.
  apply existsb_exists. exists (Some r). split; [by apply list_elem_of_In|].
  apply existsb_exists. exists c. split; [by apply list_elem_of_In|].
  rewrite Ht, Hr, String.eqb_refl. by rewrite bool_decide_eq_true_2.
Qed.

(** C6: when some configured style path resolves to a resource for
    which the file-change event holds an UPDATED change, the handler
    resolves every configured path and then makes one full reload
    ([clearIFrame = true], no resource) of all open markdown previews;
    when the list of style paths is empty the handler does nothing at
    all: no path is resolved, nothing is reloaded, the world is
    unchanged. *)
Theorem file_change_reloads_on_updated_style :
  forall (w : World) (e : FileChangesEvent),
    let paths := markdownConfigurationPaths (tracker w) in
    (paths <> [] ->
     (exists p r, p ∈ paths /\ toResource p = Some r /\ hasUpdated e r) ->
     onFileChanges e w =
     Returned tt
       (logged (map ToResource paths ++
                ReloadMarkdownEditors true None ::
                editorReloads true None (visibleEditors (host w))) w)) /\
    (paths = [] -> onFileChanges e w = Returned tt w).
Proof.
  intros w e paths. subst paths. split.
  - intros Hne (p & r & Hp & Hr & Hup).
    unfold onFileChanges, bind at 1, gets.
    destruct (markdownConfigurationPaths (tracker w)) as [|p0 rest] eqn:Hpaths;
      [done|].
    cbn [length Nat.eqb negb]. unfold bind at 1. rewrite resolveAll_spec.
    rewrite (containsAny_intro e _ r); [| |done].
    + unfold bind. rewrite reloadMarkdownEditors_spec. unfold ret.
      by rewrite logged_logged.
    + rewrite <- Hr. by apply list_elem_of_fmap_2.
  - intros Hnil. unfold onFileChanges, bind, gets. by rewrite Hnil.
Qed.

(** C7: a theme change with a non-empty theme identifier makes one
    [configureMode] call for the markdown mode with the base theme of
    the identifier, then one call of [reloadMarkdownEditors(true)]
    without resource, and apart from the [reload] of each open preview
    nothing else, however many previews are open. *)
Theorem theme_change_configures_once_and_reloads_once :
  forall (w : World) (themeId : string),
    themeId <> "" ->
    let calls := ConfigureMode "text/x-web-markdown" (getBaseThemeId themeId) ::
                ReloadMarkdownEditors true None ::
                editorReloads true None (visibleEditors (host w)) in
    onDidThemeChange themeId w = Returned tt (logged calls w) /\
    List.filter isConfigureMode calls =
      [ConfigureMode "text/x-web-markdown" (getBaseThemeId themeId)] /\
    List.filter isReloadCall calls = [ReloadMarkdownEditors true None].
Proof.
  intros w themeId Hne calls. subst calls. split_and!.
  - unfold onDidThemeChange, configureMode, bind at 1. cbn [truthy].
    destruct (String.eqb_spec themeId "") as [->|_]; [done|]. cbn [negb when].
    rewrite call_logged. unfold bind. rewrite reloadMarkdownEditors_spec.
    unfold ret. by rewrite logged_logged.
  - cbn. by rewrite (proj2 (editorReloads_not_calls _ _ _)).
  - cbn. by rewrite (proj1 (editorReloads_not_calls _ _ _)).
Qed.

End HandlerFacts.

(** ** Construction and disposal *)

Section LifecycleFacts.
Context `{Services}.

Lemma constructor_spec h : constructor (blank h) = Returned tt (constructed h).
Proof.
  unfold constructor, registerListeners, configureMode, addListener, constructed.
  cbv [bind ret gets modify when call truthy].
  destruct h as [reg tms nt clock act vis ms config themeId].
  cbn [blank tracker host closures trace theme configuration set_tracker set_host].
  destruct (String.eqb themeId ""); cbn [negb];
    rewrite readMarkdownConfiguration_spec; unfold remember;
    cbv [set_tracker set_host with_listeners with_fileChangeListener
         with_configFileChangeListener with_themeChangeListener
         with_editorInputChangeListener with_thumbprint with_paths with_flags
         with_registered tracker host closures trace registered timers
         nextTimer now activeInput visibleEditors models configuration theme
         fileChangeListener configFileChangeListener themeChangeListener
         editorInputChangeListener markdownConfigurationThumbprint
         markdownConfigurationPaths reloadTimeout hasModelListenerOnResourcePath
         registrationCalls];
    rewrite <- !app_assoc; reflexivity.
Qed.

Lemma create_constructed h : create h = constructed h.
Proof. unfold create. by rewrite constructor_spec. Qed.

Lemma dispose_constructed h :
  dispose (constructed h) =
  Returned tt
    (logged [DisposeListener FileChangesSource; DisposeListener ConfigurationSource;
             DisposeListener EditorsChangedSource]
       (set_tracker (with_listeners None None (Some ThemeSource) None)
          (set_host (fun h' => with_registered
             (List.filter (fun s => negb (bool_decide (s = EditorsChangedSource)))
               (List.filter (fun s => negb (bool_decide (s = ConfigurationSource)))
                 (List.filter (fun s => negb (bool_decide (s = FileChangesSource)))
                   (registered h')))) h')
             (constructed h)))).
Proof.
  unfold dispose, disposeListener, constructed, logged.
  cbv [bind ret gets modify call]. cbn. by rewrite <- !app_assoc.
Qed.

(** Disposing an already disposed tracker does nothing. *)
Lemma dispose_twice w :
  dispose (world_of (dispose w)) = Returned tt (world_of (dispose w)).
Proof.
  destruct w as [[fc cc tc ec th ps rt fl] cs h tr].
  unfold dispose, disposeListener. cbv [bind ret gets modify call].
  destruct fc, cc, ec; reflexivity.
Qed.

(** C3: after [dispose] on a freshly constructed tracker, exactly the
    file-change, configuration-change and editor-set-change
    registrations have been disposed; the theme-change registration is
    still held in [themeChangeListener], is still installed in the
    theme service, and a later theme change is still handled. *)
Theorem dispose_leaves_theme_listener :
  forall (h : Host) (themeId : string),
    let w := create h in
    let w' := world_of (dispose w) in
    effects w' = effects w ++
      [DisposeListener FileChangesSource; DisposeListener ConfigurationSource;
       DisposeListener EditorsChangedSource] /\
    themeChangeListener (tracker w') = Some ThemeSource /\
    ThemeSource ∈ registered (host w') /\
    ReloadMarkdownEditors true None ∈ effects (step w' (ThemeChanged themeId)).
Proof.
  intros h themeId w w'. subst w w'.
  rewrite create_constructed, dispose_constructed. cbn [world_of].
  assert (Hreg : ThemeSource ∈ registered (host (logged
      [DisposeListener FileChangesSource; DisposeListener ConfigurationSource;
       DisposeListener EditorsChangedSource]
      (set_tracker (with_listeners None None (Some ThemeSource) None)
         (set_host (fun h' => with_registered
            (List.filter (fun s => negb (bool_decide (s = EditorsChangedSource)))
              (List.filter (fun s => negb (bool_decide (s = ConfigurationSource)))
                (List.filter (fun s => negb (bool_decide (s = FileChangesSource)))
                  (registered h')))) h')
            (constructed h)))))).
  { cbn. apply list_elem_of_In. repeat (apply filter_In; split; [|done]).
    apply in_or_app. right. cbn. tauto. }
  split_and!.
  - by rewrite effects_logged.
  - reflexivity.
  - exact Hreg.
  - unfold step, deliver, isRegistered, bind at 1, gets.
    rewrite bool_decide_eq_true_2 by exact Hreg.
    unfold onDidThemeChange, bind.
    destruct (configureMode themeId _) as [[] w1 | err w1] eqn:Hcm.
    + rewrite reloadMarkdownEditors_spec. cbn [world_of ret].
      rewrite effects_logged. apply list_elem_of_In, in_or_app. right. by left.
    + unfold configureMode, when, call, modify in Hcm.
      by destruct (truthy (JStr themeId)).
Qed.

(** C4, as the code has it: on construction the tracker first applies
    the current theme (a non-empty identifier) to the markdown mode,
    then registers the file-change, configuration-change and
    editor-set-change listeners, then reads the current configuration
    into its thumbprint and style paths, and last registers the
    theme-change listener; the constructor returns normally with all
    four registrations installed. *)
Theorem construction_order :
  forall (h : Host),
    theme h <> "" ->
    let w := create h in
    constructor (blank h) = Returned tt w /\
    effects w =
      [ConfigureMode "text/x-web-markdown" (getBaseThemeId (theme h));
       AddListener FileChangesSource; AddListener ConfigurationSource;
       AddListener EditorsChangedSource; GetConfiguration;
       AddListener ThemeSource] /\
    markdownConfigurationThumbprint (tracker w) = thumbprintOf (configuration h) /\
    markdownConfigurationPaths (tracker w) = pathsOf (configuration h) /\
    registered (host w) =
      registered h ++ [FileChangesSource; ConfigurationSource;
                       EditorsChangedSource; ThemeSource].
Proof.
  intros h Hth w. subst w. rewrite create_constructed, constructor_spec.
  split_and!; try reflexivity.
  unfold effects, constructed. cbn [trace].
  destruct (String.eqb_spec (theme h) "") as [Heq|_]; [done|].
  rewrite map_map. cbn. reflexivity.
Qed.

End LifecycleFacts.

(** C4, as stated, fails: the constructor of the sample tracker
    registers the file-change listener (its second call) before it
    reads the configuration (its fifth call). *)
Lemma construction_registers_before_reading :
  ~ configurationReadBeforeListeners (effects sampleWorld).
Proof.
  intros Hclaim.
  specialize (Hclaim 1 4 FileChangesSource eq_refl eq_refl). lia.
Qed.

(** Witness of the amended C4 in the sample host. *)
Lemma construction_order_witness :
  theme sampleHost <> "" /\
  effects sampleWorld =
    [ConfigureMode "text/x-web-markdown" "vs-dark";
     AddListener FileChangesSource; AddListener ConfigurationSource;
     AddListener EditorsChangedSource; GetConfiguration;
     AddListener ThemeSource].
Proof.
  split; [discriminate|].
  apply (construction_order (H := sampleServices) sampleHost). discriminate.
Defined.

(** ** Methods that leave the timeouts alone *)

Lemma Untimed_refl w : Untimed w w.
Proof. by repeat split. Qed.

Lemma Untimed_trans w1 w2 w3 : Untimed w1 w2 -> Untimed w2 w3 -> Untimed w1 w3.
Proof.
  intros (?&?&?) (?&?&?). repeat split; etrans; eauto.
Qed.

Lemma Untimed_TimersOk w w' : Untimed w w' -> TimersOk w -> TimersOk w'.
Proof.
  intros (Ht & Hn & Hr) [Hpos Hok]. unfold TimersOk. by rewrite Ht, Hn, Hr.
Qed.

Lemma frames_ret {A} (a : A) : Frames (ret a).
Proof. intros w. exists a, w. split; [done | apply Untimed_refl]. Qed.

Lemma frames_gets {A} (f : World -> A) : Frames (gets f).
Proof. intros w. exists (f w), w. split; [done | apply Untimed_refl]. Qed.

Lemma frames_modify f : (forall w, Untimed w (f w)) -> Frames (modify f).
Proof. intros Hf w. exists tt, (f w). split; [done | apply Hf]. Qed.

Lemma frames_call e : Frames (call e).
Proof. apply frames_modify. intros w. by repeat split. Qed.

Lemma frames_bind {A B} (m : M A) (k : A -> M B) :
  Frames m -> (forall a, Frames (k a)) -> Frames (bind m k).
Proof.
  intros Hm Hk w. destruct (Hm w) as (a & w1 & Hrun & Hu1).
  destruct (Hk a w1) as (b & w2 & Hrun2 & Hu2).
  exists b, w2. unfold bind. rewrite Hrun. split; [done|].
  by eapply Untimed_trans.
Qed.

Lemma frames_forEach {A} (l : list A) (f : A -> M unit) :
  (forall x, Frames (f x)) -> Frames (forEach l f).
Proof.
  intros Hf. induction l as [|x rest IH]; simpl.
  - apply frames_ret.
  - apply frames_bind; [apply Hf | intros _; apply IH].
Qed.

Lemma frames_logged {A} (m : M A) :
  (forall w, exists a es, m w = Returned a (logged es w)) -> Frames m.
Proof.
  intros Hm w. destruct (Hm w) as (a & es & ->).
  exists a, (logged es w). split; [done | by repeat split].
Qed.

Create HintDb frames.

(** Discharge [Frames] goals by following the structure of the method,
    using the facts already in the hint database for the methods it calls. *)
Ltac frames :=
  repeat first
    [ solve [auto with frames nocore]
    | apply frames_ret
    | apply frames_gets
    | apply frames_call
    | apply frames_modify; intros ?; by repeat split
    | apply frames_forEach; intros ?
    | apply frames_bind; [|intros ?]
    | match goal with
      | |- Frames (if ?b then _ else _) => destruct b
      | |- Frames (match ?x with _ => _ end) => destruct x
      end ].

Section FrameFacts.
Context `{Services}.

Lemma frames_reloadMarkdownEditors clearIFrame resource :
  Frames (reloadMarkdownEditors clearIFrame resource).
Proof.
  apply frames_logged. intros w. rewrite reloadMarkdownEditors_spec. eauto.
Qed.
#[local] Hint Resolve frames_reloadMarkdownEditors : frames.

Lemma frames_onConfigFileChange config : Frames (onConfigFileChange config).
Proof.
  intros w. rewrite onConfigFileChange_spec.
  eexists _, _. split; [done | by repeat split].
Qed.
#[local] Hint Resolve frames_onConfigFileChange : frames.

Lemma frames_resolveAll paths : Frames (resolveAll paths).
Proof.
  apply frames_logged. intros w. rewrite resolveAll_spec. eauto.
Qed.
#[local] Hint Resolve frames_resolveAll : frames.

Lemma frames_onFileChanges e : Frames (onFileChanges e).
Proof.
  unfold onFileChanges.
  frames.
Qed.
#[local] Hint Resolve frames_onFileChanges : frames.

Lemma frames_configureMode themeId : Frames (configureMode themeId).
Proof. unfold configureMode, when. frames. Qed.
#[local] Hint Resolve frames_configureMode : frames.

Lemma frames_onDidThemeChange themeId : Frames (onDidThemeChange themeId).
Proof.
  unfold onDidThemeChange.
  frames.
Qed.
#[local] Hint Resolve frames_onDidThemeChange : frames.

Lemma frames_unbind closure resource : Frames (unbind closure resource).
Proof. unfold unbind. frames. Qed.
#[local] Hint Resolve frames_unbind : frames.

Lemma frames_onReloadTimeout closure resource :
  Frames (onReloadTimeout closure resource).
Proof.
  unfold onReloadTimeout.
  frames.
Qed.
#[local] Hint Resolve frames_onReloadTimeout : frames.

Lemma frames_onEditorsChanged : Frames onEditorsChanged.
Proof. unfold onEditorsChanged, push. frames. Qed.
#[local] Hint Resolve frames_onEditorsChanged : frames.

Lemma frames_dispose : Frames dispose.
Proof. unfold dispose, disposeListener. frames. Qed.
#[local] Hint Resolve frames_dispose : frames.

(** ** The debounce timer *)

Lemma scheduled_TimersOk id b es w : 0 < id -> TimersOk (scheduled id b es w).
Proof. intros Hid. unfold TimersOk. cbn. split; [lia | by split]. Qed.

Lemma scheduled_scheduled id1 b1 es1 id2 b2 es2 w :
  scheduled id2 b2 es2 (scheduled id1 b1 es1 w) = scheduled id2 b2 (es1 ++ es2) w.
Proof.
  unfold scheduled, logged. cbn. by rewrite map_app, app_assoc.
Qed.

Lemma onDidChangeContent_spec b w :
  TimersOk w ->
  exists es,
    onDidChangeContent b w = Returned tt (scheduled (nextTimer (host w)) b es w) /\
    forallb isTimerCall es = true.
Proof.
  intros [Hpos Hok].
  unfold onDidChangeContent, clearTimeout, setTimeout.
  cbv [bind ret gets modify call].
  destruct (handle_truthy (reloadTimeout (tracker w))) eqn:Htruthy.
  - exists [ClearTimeout (default 0 (reloadTimeout (tracker w)));
            SetTimeout (nextTimer (host w)) RELOAD_MARKDOWN_DELAY].
    split; [|done].
    assert (Hclear : List.filter
              (fun tm => negb (Nat.eqb (timer_id tm) (default 0 (reloadTimeout (tracker w)))))
              (timers (host w)) = []).
    { destruct (timers (host w)) as [|tm [|tm' rest]]; [done| |done].
      destruct Hok as [-> _]. cbn. by rewrite Nat.eqb_refl. }
    unfold scheduled, logged. cbn. rewrite Hclear. cbn.
    by rewrite <- app_assoc.
  - exists [SetTimeout (nextTimer (host w)) RELOAD_MARKDOWN_DELAY].
    split; [|done].
    assert (Hnone : timers (host w) = []).
    { destruct (timers (host w)) as [|tm [|tm' rest]]; [done| |done].
      destruct Hok as [Hrt Hid]. rewrite Hrt in Htruthy. cbn in Htruthy.
      destruct (timer_id tm); [lia | done]. }
    unfold scheduled, logged. cbn. by rewrite Hnone.
Qed.

Lemma contentListeners_spec ls : forall w,
  TimersOk w -> ls <> [] ->
  exists id b es,
    forEach ls (fun l : nat * string => onDidChangeContent (fst l)) w =
      Returned tt (scheduled id b es w) /\
    0 < id /\ b ∈ map fst ls /\ forallb isTimerCall es = true.
Proof.
  induction ls as [|l rest IH]; intros w Hok Hne; [done|].
  cbn [forEach]. unfold bind at 1.
  destruct (onDidChangeContent_spec (fst l) w Hok) as (es & -> & Hes).
  destruct rest as [|l' rest'].
  - exists (nextTimer (host w)), (fst l), es. cbn.
    split_and!; [done | apply Hok | by left | done].
  - destruct (IH (scheduled (nextTimer (host w)) (fst l) es w)) as (id & b & es' & Hrun & Hid & Hb & Hes');
      [apply scheduled_TimersOk, Hok | done |].
    rewrite Hrun, scheduled_scheduled.
    exists id, b, (es ++ es'). split_and!; [done | done | by right |].
    by rewrite forallb_app, Hes, Hes'.
Qed.

(** No pending timeout is due by [t]: the clock just moves on. *)
Lemma clock_idle w t :
  TimersOk w ->
  (forall tm, tm ∈ timers (host w) -> t < timer_due tm) ->
  deliver (ClockAdvanced t) w =
  Returned tt (set_host (fun h => with_now (Nat.max (now h) t) h) w).
Proof.
  intros [_ Hok] Hdue. unfold deliver. cbv [bind gets modify].
  destruct (timers (host w)) as [|tm [|tm' rest]] eqn:Htimers; [done| |done].
  cbn [length runTimers]. cbv [bind gets]. rewrite Htimers. cbn [earliest].
  assert (Hlt : t < timer_due tm) by (apply Hdue; by left).
  destruct (Nat.leb_spec (timer_due tm) t); [lia | done].
Qed.

(** The only pending timeout is due by [t]: its callback runs. *)
Lemma clock_fires w tm c t :
  timers (host w) = [tm] ->
  timer_due tm <= t ->
  closures w !! timer_closure tm = Some c ->
  deliver (ClockAdvanced t) w = Returned tt (fired tm c t w).
Proof.
  intros Htimers Hdue Hc. unfold deliver. cbv [bind gets modify].
  rewrite Htimers. cbn [length runTimers]. cbv [bind gets modify].
  rewrite Htimers. cbn [earliest].
  destruct (Nat.leb_spec (timer_due tm) t); [|lia].
  cbn [closures set_host]. rewrite Hc.
  unfold onReloadTimeout, bind. rewrite reloadMarkdownEditors_spec.
  unfold fired. cbn [host set_host visibleEditors with_now with_timers timers].
  replace (set_host _ w) with
    (set_host (fun h => with_now (Nat.max (now h) (timer_due tm))
                          (with_timers [] (nextTimer h) h)) w).
  2:{ unfold set_host. rewrite Htimers. cbn [List.filter].
      by rewrite Nat.eqb_refl. }
  destruct (existsb _ _); cbn [negb]; reflexivity.
Qed.

Lemma frames_returns {A} (m : M A) w :
  Frames m -> TimersOk w -> exists a w', m w = Returned a w' /\ TimersOk w'.
Proof.
  intros Hm Hok. destruct (Hm w) as (a & w' & Hrun & Hu).
  exists a, w'. split; [done | by apply (Untimed_TimersOk w)].
Qed.

Lemma clock_returns w t :
  TimersOk w ->
  exists w', deliver (ClockAdvanced t) w = Returned tt w' /\ TimersOk w'.
Proof.
  intros Hok.
  destruct (timers (host w)) as [|tm [|tm' rest]] eqn:Htimers.
  - rewrite clock_idle; [|done|]. 2:{ rewrite Htimers. by intros tm' ?%elem_of_nil. }
    eexists. split; [done|].
    apply (Untimed_TimersOk w); [by repeat split | done].
  - destruct (Nat.leb_spec (timer_due tm) t) as [Hdue|Hlater].
    + unfold deliver. cbv [bind gets modify].
      rewrite Htimers. cbn [length runTimers]. cbv [bind gets modify].
      rewrite Htimers. cbn [earliest].
      destruct (Nat.leb_spec (timer_due tm) t); [|lia].
      cbn [closures set_host].
      match goal with |- context [set_host ?f w] => set (w1 := set_host f w) end.
      assert (Hok1 : TimersOk w1).
      { destruct Hok as [Hpos _]. subst w1. unfold TimersOk. cbn.
        rewrite Htimers. cbn. by rewrite Nat.eqb_refl. }
      destruct (closures w !! timer_closure tm) as [c|].
      * destruct (frames_onReloadTimeout (timer_closure tm) (markdownResource c) w1)
          as ([] & w2 & -> & Hu).
        cbn. eexists. split; [done|].
        apply (Untimed_TimersOk w2); [by repeat split|].
        by apply (Untimed_TimersOk w1).
      * cbn. eexists. split; [done|].
        apply (Untimed_TimersOk w1); [by repeat split | done].
    + rewrite clock_idle; [|done|].
      2:{ rewrite Htimers. intros tm' ->%list_elem_of_singleton. lia. }
      eexists. split; [done|].
      apply (Untimed_TimersOk w); [by repeat split | done].
  - destruct Hok as [_ Hok]. by rewrite Htimers in Hok.
Qed.

Lemma frames_deliver ev :
  match ev with ContentChanged _ | ClockAdvanced _ => True | _ => Frames (deliver ev) end.
Proof.
  destruct ev; try exact I; unfold deliver, isRegistered, subscribers; frames.
Qed.

(** Every event is handled without an exception and preserves the
    debounce invariant. *)
Lemma deliver_returns w ev :
  TimersOk w ->
  exists w', deliver ev w = Returned tt w' /\ TimersOk w'.
Proof.
  intros Hok.
  pose proof (frames_deliver ev) as Hframes.
  destruct ev;
    try (destruct (frames_returns _ w Hframes Hok) as ([] & w' & Hrun & Hok'); by eauto).
  - unfold deliver, subscribers, bind at 1, gets.
    destruct (subscribersFrom 0 ContentListener (onResource resource) (closures w))
      as [|l ls] eqn:Hls; [by exists w|].
    destruct (contentListeners_spec (l :: ls) w Hok) as (id & b & es & -> & Hid & _);
      [done|].
    eexists. split; [done | by apply scheduled_TimersOk].
  - by apply clock_returns.
Qed.

Lemma step_TimersOk w ev : TimersOk w -> TimersOk (step w ev).
Proof.
  intros Hok. unfold step.
  by destruct (deliver_returns w ev Hok) as (w' & -> & Hok').
Qed.

Lemma run_TimersOk evs : forall w, TimersOk w -> TimersOk (run w evs).
Proof.
  induction evs as [|ev rest IH]; intros w Hok; [done|].
  apply IH. by apply step_TimersOk.
Qed.

Lemma create_TimersOk config themeId ms active visible :
  TimersOk (create (startup config themeId ms active visible)).
Proof. rewrite create_constructed. unfold TimersOk. cbn. split; [lia | done]. Qed.

Lemma TimersOk_at_most_one w : TimersOk w -> length (timers (host w)) <= 1.
Proof.
  intros [_ Hok]. destruct (timers (host w)) as [|tm [|tm' rest]]; cbn; [lia | lia | done].
Qed.

Lemma subscribersFrom_lookup s sel cs : forall i b,
  b ∈ map fst (subscribersFrom i s sel cs) ->
  exists c, cs !! (b - i) = Some c /\ i <= b /\ sel c = true /\ s ∈ toUnbind c.
Proof.
  induction cs as [|c rest IH]; intros i b Hb; cbn in Hb.
  - by apply elem_of_nil in Hb.
  - destruct (sel c) eqn:Hsel; cbn in Hb.
    + destruct (decide (s ∈ toUnbind c)) as [Hin|Hnot].
      * rewrite bool_decide_eq_true_2 in Hb by done. cbn in Hb.
        apply elem_of_cons in Hb as [-> | Hb].
        -- exists c. rewrite Nat.sub_diag. by split_and!.
        -- destruct (IH _ _ Hb) as (c' & Hc' & Hle & Hs & Hin').
           exists c'. replace (b - i) with (S (b - S i)) by lia. by split_and!; [|lia|..].
      * rewrite bool_decide_eq_false_2 in Hb by done.
        destruct (IH _ _ Hb) as (c' & Hc' & Hle & Hs & Hin').
        exists c'. replace (b - i) with (S (b - S i)) by lia. by split_and!; [|lia|..].
    + destruct (IH _ _ Hb) as (c' & Hc' & Hle & Hs & Hin').
      exists c'. replace (b - i) with (S (b - S i)) by lia. by split_and!; [|lia|..].
Qed.

Lemma reloadCalls_app l1 l2 : reloadCalls (l1 ++ l2) = reloadCalls l1 ++ reloadCalls l2.
Proof. unfold reloadCalls. apply List.filter_app. Qed.

Lemma reloadCalls_timer_calls n es :
  forallb isTimerCall es = true -> reloadCalls (map (pair n) es) = [].
Proof.
  induction es as [|e rest IH]; [done|]. cbn [forallb].
  intros [He Hrest]%andb_prop. specialize (IH Hrest).
  unfold reloadCalls in *. cbn. rewrite IH. by destruct e.
Qed.

Lemma reloadCalls_editorReloads n clearIFrame resource editors :
  reloadCalls (map (pair n) (editorReloads clearIFrame resource editors)) = [].
Proof.
  unfold editorReloads, reloadCalls.
  induction (List.filter (isReloadTarget resource) editors); cbn; auto.
Qed.

(** One content change of a burst: the pending timeout, not yet due, is
    replaced by one that is due a full delay later. *)
Lemma arm r w0 w t new :
  TimersOk w ->
  liveContentListeners r w0 <> [] ->
  closures w = closures w0 ->
  visibleEditors (host w) = visibleEditors (host w0) ->
  trace w = trace w0 ++ new -> reloadCalls new = [] ->
  now (host w) <= t ->
  (forall tm, tm ∈ timers (host w) -> t < timer_due tm) ->
  Armed r w0 (step (step w (ClockAdvanced t)) (ContentChanged r)) t.
Proof.
  intros Hok Hlive Hcs Hvis Htrace Hnew Hnow Hdue.
  unfold step at 2. rewrite clock_idle by done. cbn [world_of].
  set (wa := set_host _ w).
  assert (Hoka : TimersOk wa) by (apply (Untimed_TimersOk w); [by repeat split | done]).
  unfold step, deliver, subscribers, bind at 1, gets.
  change (closures wa) with (closures w). rewrite Hcs.
  fold (liveContentListeners r w0).
  destruct (contentListeners_spec (liveContentListeners r w0) wa Hoka Hlive)
    as (id & b & es & -> & Hid & Hb & Hes).
  apply subscribersFrom_lookup in Hb as (c & Hc & _ & Hsel & _).
  rewrite Nat.sub_0_r in Hc.
  unfold Armed. split_and!.
  - by apply scheduled_TimersOk.
  - cbn. lia.
  - exact Hcs.
  - exact Hvis.
  - eexists _, c. split_and!; [reflexivity | cbn; lia | exact Hc |].
    unfold onResource in Hsel. by apply String.eqb_eq in Hsel.
  - exists (new ++ map (pair (Nat.max (now (host w)) t)) es). split.
    + cbn. by rewrite Htrace, app_assoc.
    + by rewrite reloadCalls_app, Hnew, reloadCalls_timer_calls.
Qed.

Lemma last_nonempty_default (x : nat) l : forall d d',
  List.last (x :: l) d = List.last (x :: l) d'.
Proof.
  revert x. induction l as [|y l IH]; intros x d d'; [done|].
  change (List.last (y :: l) d = List.last (y :: l) d'). apply IH.
Qed.

Lemma last_cons_cons (a b : nat) l : List.last (a :: l) b = List.last l a.
Proof.
  destruct l as [|x l]; [done|].
  change (List.last (x :: l) b = List.last (x :: l) a).
  apply last_nonempty_default.
Qed.

Lemma burst_armed r w0 rest : forall t w,
  liveContentListeners r w0 <> [] ->
  Armed r w0 w t ->
  closelySpaced t rest ->
  Armed r w0 (run w (burst r rest)) (List.last rest t).
Proof.
  induction rest as [|t' rest IH]; intros t w Hlive Harmed Hspaced; [done|].
  destruct Hspaced as (Hle & Hlt & Hrest).
  destruct Harmed as (Hok & Hnow & Hcs & Hvis & (tm & c & Htm & Hdue & _) & (new & Htrace & Hnew)).
  cbn [burst run fold_left]. rewrite last_cons_cons.
  apply IH; [done| |done].
  eapply arm; eauto; [lia|].
  rewrite Htm. intros tm' ->%list_elem_of_singleton. lia.
Qed.

(** C2: in every run of a tracker from its construction at most one
    timeout is pending after each event.  And from any state that
    satisfies the debounce invariant, in which document [r] has a
    content listener and no timeout is due yet: content changes of [r]
    at instants [t1 :: rest], each less than [RELOAD_MARKDOWN_DELAY]
    after the one before, leave exactly one pending timeout, due a full
    delay after the last of them, without any reload; once the clock
    has passed that instant there has been exactly one call of
    [reloadMarkdownEditors], with [clearIFrame = false] and resource
    [r], made at that instant, and no timeout is pending. *)
Theorem debounce_fires_once_after_last_change :
  (forall config themeId ms active visible (evs : list Event),
     length (timers (host
       (run (create (startup config themeId ms active visible)) evs))) <= 1) /\
  (forall (w : World) (r : string) (t1 : nat) (rest : list nat) (T : nat),
     TimersOk w ->
     liveContentListeners r w <> [] ->
     now (host w) <= t1 ->
     (forall tm, tm ∈ timers (host w) -> t1 < timer_due tm) ->
     closelySpaced t1 rest ->
     let tN := List.last rest t1 in
     tN + RELOAD_MARKDOWN_DELAY <= T ->
     let w1 := run w (burst r (t1 :: rest)) in
     let w2 := step w1 (ClockAdvanced T) in
     (exists tm, timers (host w1) = [tm] /\
                 timer_due tm = tN + RELOAD_MARKDOWN_DELAY) /\
     (exists new, trace w1 = trace w ++ new /\ reloadCalls new = []) /\
     (exists new, trace w2 = trace w ++ new /\
                  reloadCalls new =
                    [(tN + RELOAD_MARKDOWN_DELAY,
                      ReloadMarkdownEditors false (Some r))]) /\
     timers (host w2) = []).
Proof.
  split.
  - intros. apply TimersOk_at_most_one, run_TimersOk, create_TimersOk.
  - intros w r t1 rest T Hok Hlive Hnow Hdue Hspaced tN HT w1 w2.
    assert (Harmed : Armed r w w1 tN).
    { subst w1 tN. cbn [burst run fold_left].
      apply burst_armed; [done| |done].
      apply (arm r w w t1 []); auto. by rewrite app_nil_r. }
    destruct Harmed as (Hok1 & Hnow1 & Hcs1 & Hvis1 & (tm & c & Htm & Hdue1 & Hc & Hr)
                        & (new & Htrace & Hnew)).
    subst w2. clearbody w1 tN.
    split_and!.
    + by exists tm.
    + by exists new.
    + unfold step.
      rewrite (clock_fires w1 tm c T) by (rewrite ?Hcs1; first [done | lia]).
      cbn [world_of]. unfold fired. rewrite Hr.
      exists (new ++ map (pair (Nat.max (now (host w1)) (timer_due tm)))
                (ReloadMarkdownEditors false (Some r) ::
                 editorReloads false (Some r) (visibleEditors (host w1)))).
      split.
      * destruct (existsb _ _); cbn; by rewrite Htrace, <- app_assoc.
      * rewrite reloadCalls_app, Hnew. cbn [map app].
        unfold reloadCalls at 1. cbn [List.filter snd isReloadCall].
        fold (reloadCalls (map (pair (Nat.max (now (host w1)) (timer_due tm)))
                (editorReloads false (Some r) (visibleEditors (host w1))))).
        rewrite reloadCalls_editorReloads.
        replace (Nat.max (now (host w1)) (timer_due tm))
          with (tN + RELOAD_MARKDOWN_DELAY) by lia.
        done.
    + unfold step.
      rewrite (clock_fires w1 tm c T) by (rewrite ?Hcs1; first [done | lia]).
      unfold fired. by destruct (existsb _ _).
Qed.

Lemma subscribersFrom_nil s sel cs : forall i,
  (forall j c, cs !! j = Some c -> sel c = true -> s ∉ toUnbind c) ->
  subscribersFrom i s sel cs = [].
Proof.
  induction cs as [|c rest IH]; intros i Hnone; [done|]. cbn.
  destruct (sel c) eqn:Hsel; cbn.
  - rewrite bool_decide_eq_false_2 by (by apply (Hnone 0 c)).
    apply IH. intros j c' Hj. by apply (Hnone (S j)).
  - apply IH. intros j c' Hj. by apply (Hnone (S j)).
Qed.

Lemma no_target_existsb resource (editors : list Editor) :
  (forall e, e ∈ editors -> isReloadTarget resource e = false) ->
  existsb (isReloadTarget resource) editors = false /\
  List.filter (isReloadTarget resource) editors = [].
Proof.
  induction editors as [|e rest IH]; intros Hnone; [done|]. cbn.
  rewrite (Hnone e) by by left. cbn. apply IH.
  intros e' He'. apply Hnone. by right.
Qed.

(** C5: when the only pending timeout fires while no visible editor is
    an iframe preview of its document, the callback calls
    [reloadMarkdownEditors(false, resource)], which reloads no editor
    and returns [false], and then unbinds: the closure's subscriptions are released, the
    entry of the document in [hasModelListenerOnResourcePath] is
    [false] and no timeout is pending; if the closure was the only one
    with a content listener for the document, the document has no
    content listener left. *)
Theorem timeout_after_close_unbinds :
  forall (w : World) (tm : Timer) (c : Closure) (t : nat),
    timers (host w) = [tm] ->
    timer_due tm <= t ->
    closures w !! timer_closure tm = Some c ->
    (forall e, e ∈ visibleEditors (host w) ->
               isReloadTarget (Some (markdownResource c)) e = false) ->
    let r := markdownResource c in
    let w' := step w (ClockAdvanced t) in
    deliver (ClockAdvanced t) w = Returned tt w' /\
    reloadMarkdownEditors false (Some r) w =
      Returned false (logged [ReloadMarkdownEditors false (Some r)] w) /\
    trace w' = trace w ++
      [(Nat.max (now (host w)) (timer_due tm), ReloadMarkdownEditors false (Some r))] /\
    closures w' !! timer_closure tm = Some (with_toUnbind [] c) /\
    hasModelListenerOnResourcePath (tracker w') !! r = Some false /\
    timers (host w') = [] /\
    ((forall i c', closures w !! i = Some c' -> markdownResource c' = r ->
                   ContentListener ∈ toUnbind c' -> i = timer_closure tm) ->
     liveContentListeners r w' = []).
Proof.
  intros w tm c t Htimers Hdue Hc Hclosed r w'. subst w' r. unfold step.
  rewrite (clock_fires w tm c t) by done. cbn [world_of]. unfold fired.
  rewrite reloadMarkdownEditors_spec.
  destruct (no_target_existsb _ _ Hclosed) as [-> Hnone].
  unfold editorReloads. rewrite Hnone. cbn [map].
  set (r := markdownResource c).
  split_and!.
  - reflexivity.
  - reflexivity.
  - reflexivity.
  - cbn. by rewrite list_lookup_alter_eq, Hc.
  - cbn. by rewrite lookup_insert_eq.
  - reflexivity.
  - intros Honly. unfold liveContentListeners. cbn.
    apply subscribersFrom_nil. intros j c' Hj Hsel Hin.
    destruct (decide (j = timer_closure tm)) as [->|Hne].
    + rewrite list_lookup_alter_eq, Hc in Hj. injection Hj as <-.
      cbn in Hin. by apply elem_of_nil in Hin.
    + rewrite list_lookup_alter_ne in Hj by done.
      apply Hne, (Honly j c'); [done| |done].
      unfold onResource in Hsel. by apply String.eqb_eq in Hsel.
Qed.

End FrameFacts.

(** ** Attaching content listeners *)

Section ListenerFacts.
Context `{Services}.

(** [onEditorsChanged] does nothing for a document marked as listened to. *)
Lemma onEditorsChanged_marked w input r :
  activeInput (host w) = Some input ->
  input_markdown input = Some r ->
  hasModelListenerOnResourcePath (tracker w) !! r = Some true ->
  onEditorsChanged w = Returned tt w.
Proof.
  intros Hactive Hmd Hflag. unfold onEditorsChanged. cbv [bind gets].
  rewrite Hactive, Hmd, Hflag. cbn. by rewrite andb_false_r.
Qed.

(** [onEditorsChanged] does nothing when no markdown preview is active. *)
Lemma onEditorsChanged_other w :
  match activeInput (host w) with
  | Some input => input_markdown input = None
  | None => True
  end ->
  onEditorsChanged w = Returned tt w.
Proof.
  intros Hactive. unfold onEditorsChanged. cbv [bind gets].
  destruct (activeInput (host w)) as [input|]; [|done]. by rewrite Hactive.
Qed.

(** Otherwise, when the document has a model, it makes the three
    subscriptions of a new closure and marks the document. *)
Lemma onEditorsChanged_attaches w input r :
  activeInput (host w) = Some input ->
  input_markdown input = Some r ->
  r ∈ models (host w) ->
  flag_truthy (hasModelListenerOnResourcePath (tracker w) !! r) = false ->
  let w' := world_of (onEditorsChanged w) in
  closures w' = closures w ++
    [{| markdownResource := r; boundInput := input_id input;
        toUnbind := [ContentListener; InputDisposeListener; ModelDisposeListener] |}] /\
  hasModelListenerOnResourcePath (tracker w') !! r = Some true.
Proof.
  intros Hactive Hmd Hmodel Hflag w'. subst w'.
  unfold onEditorsChanged, push. cbv [bind gets modify].
  rewrite Hactive, Hmd, Hflag. rewrite bool_decide_eq_true_2 by done.
  cbn. split; [|by rewrite lookup_insert_eq].
  rewrite <- (Nat.add_0_r (length (closures w))).
  by rewrite !alter_app_r.
Qed.

End ListenerFacts.

(** ** Worked examples *)

(** Witness of C6: the saved style sheet reloads the previews of the
    sample tracker, and does nothing in the tracker without styles. *)
Lemma file_change_reloads_on_updated_style_witness :
  onFileChanges (H := sampleServices) sampleStyleSaved sampleWorld =
    Returned tt (logged [ToResource "/a.css"; ReloadMarkdownEditors true None] sampleWorld) /\
  onFileChanges (H := sampleServices) sampleStyleSaved sampleUnconfigured =
    Returned tt sampleUnconfigured.
Proof.
  split.
  - apply (proj1 (file_change_reloads_on_updated_style (H := sampleServices)
                    sampleWorld sampleStyleSaved)).
    + discriminate.
    + exists "/a.css", "file:///a.css". split_and!.
      * by left.
      * reflexivity.
      * eexists. split_and!; [by left | reflexivity | reflexivity].
  - apply (proj2 (file_change_reloads_on_updated_style (H := sampleServices)
                    sampleUnconfigured sampleStyleSaved)).
    reflexivity.
Defined.

(** Witness of C7: a change to the dark theme while one preview is open. *)
Lemma theme_change_configures_once_and_reloads_once_witness :
  onDidThemeChange (H := sampleServices) "vs-dark" sampleListening =
  Returned tt
    (logged [ConfigureMode "text/x-web-markdown" "vs-dark";
             ReloadMarkdownEditors true None; EditorReload 7 true] sampleListening).
Proof.
  apply (theme_change_configures_once_and_reloads_once (H := sampleServices)
           sampleListening "vs-dark").
  discriminate.
Defined.

(** Witness of C2: three edits at 1000, 1100 and 1350 ms give one
    reload at 1650 ms. *)
Lemma debounce_fires_once_after_last_change_witness :
  exists new,
    trace (step (H := sampleServices)
             (run (H := sampleServices) sampleListening
                (burst sampleDocument [1000; 1100; 1350]))
             (ClockAdvanced 2000)) = trace sampleListening ++ new /\
    reloadCalls new = [(1650, ReloadMarkdownEditors false (Some sampleDocument))].
Proof.
  apply (proj2 (debounce_fires_once_after_last_change (H := sampleServices))
           sampleListening sampleDocument 1000 [1100; 1350] 2000).
  - split; [vm_compute; lia | exact I].
  - discriminate.
  - vm_compute. lia.
  - intros tm Hin. by apply elem_of_nil in Hin.
  - cbn. unfold RELOAD_MARKDOWN_DELAY. lia.
  - cbn. unfold RELOAD_MARKDOWN_DELAY. lia.
Defined.

(** Witness of C5: the timeout of the edit fires at 1300 ms, after the
    preview has been covered. *)
Lemma timeout_after_close_unbinds_witness :
  hasModelListenerOnResourcePath
    (tracker (step (H := sampleServices) samplePreviewClosed (ClockAdvanced 1300)))
    !! sampleDocument = Some false /\
  liveContentListeners sampleDocument
    (step (H := sampleServices) samplePreviewClosed (ClockAdvanced 1300)) = [].
Proof.
  pose proof (timeout_after_close_unbinds (H := sampleServices) samplePreviewClosed
                {| timer_id := 1; timer_due := 1300; timer_closure := 0 |}
                {| markdownResource := sampleDocument; boundInput := 1;
                   toUnbind := [ContentListener; InputDisposeListener;
                                ModelDisposeListener] |}
                1300 eq_refl (le_n _) eq_refl) as Hfire.
  destruct Hfire as (_ & _ & _ & _ & Hflag & _ & Hlive).
  - intros e He. apply list_elem_of_singleton in He. by subst e.
  - split; [exact Hflag|]. apply Hlive.
    intros [|[|i]] c' Hi; [done | discriminate Hi | discriminate Hi].
Defined.

(** C8, on the sample tracker: after [staleTimeoutScenario] the sample
    document has two installed content listeners, those of the closures
    1 and 2; before the last editor-set change its entry in
    [hasModelListenerOnResourcePath] was [false] although closure 1 was
    listening, since the timeout of the closed preview had fired. *)
Theorem stale_timeout_duplicates_content_listener :
  let before := run (H := sampleServices) sampleWorld
                  (take 11 staleTimeoutScenario) in
  let after := run (H := sampleServices) sampleWorld staleTimeoutScenario in
  liveContentListeners sampleDocument before = [(1, sampleDocument)] /\
  hasModelListenerOnResourcePath (tracker before) !! sampleDocument = Some false /\
  liveContentListeners sampleDocument after =
    [(1, sampleDocument); (2, sampleDocument)].
Proof. vm_compute. by split_and!. Qed.

(** ** Further properties of the methods *)

Lemma isReloadTarget_spec resource e :
  isReloadTarget resource e = true <-> ReloadTarget resource e.
Proof.
  unfold isReloadTarget, ReloadTarget. split.
  - destruct (editor_input e) as [input|]; [|done].
    destruct (input_markdown input) as [r|] eqn:Hmd; [|done].
    intros [Hif Hres]%andb_prop. exists input, r. split_and!; try done.
    destruct resource as [r'|]; [|by left].
    right. by apply String.eqb_eq in Hres as ->.
  - intros (input & r & -> & -> & -> & [-> | ->]); [done|].
    cbn. by rewrite String.eqb_refl.
Qed.

Lemma existsb_filter_length {A} (f : A -> bool) l :
  existsb f l = negb (Nat.eqb (length (List.filter f l)) 0).
Proof.
  induction l as [|x l IH]; [done|]. cbn. by destruct (f x).
Qed.

Section MoreMethodFacts.
Context `{Services}.

(** X1: [reloadMarkdownEditors] reloads, in the order of the visible
    editors and each with the given [clearIFrame], exactly the iframe
    editors whose input is a markdown input (of the given resource, if
    one is given); it returns [true] exactly when there is such an
    editor, and changes nothing in the tracker or the host. *)
Theorem reload_reloads_exactly_the_matching_editors :
  forall (clearIFrame : bool) (resource : option string) (w : World),
    let targets := List.filter (isReloadTarget resource) (visibleEditors (host w)) in
    reloadMarkdownEditors clearIFrame resource w =
      Returned (negb (Nat.eqb (length targets) 0))
        (logged (ReloadMarkdownEditors clearIFrame resource ::
                 map (fun e => EditorReload (editor_id e) clearIFrame) targets) w) /\
    (forall e, e ∈ targets <->
               e ∈ visibleEditors (host w) /\ ReloadTarget resource e).
Proof.
  intros clearIFrame resource w targets. subst targets. split.
  - rewrite reloadMarkdownEditors_spec. by rewrite existsb_filter_length.
  - intros e. rewrite !list_elem_of_In, filter_In, <- isReloadTarget_spec. tauto.
Qed.

(** X2: after [dispose] the three listener fields it handles are
    [null], and a second [dispose] makes no call and leaves the world
    as it is, whatever the state of the tracker was. *)
Theorem dispose_is_idempotent :
  forall (w : World),
    let w' := world_of (dispose w) in
    fileChangeListener (tracker w') = None /\
    configFileChangeListener (tracker w') = None /\
    editorInputChangeListener (tracker w') = None /\
    dispose w' = Returned tt w'.
Proof.
  intros w w'. subst w'. split_and!; [| | |apply dispose_twice].
  all: destruct w as [[fc cc tc ec th ps rt fl] cs h tr];
       unfold dispose, disposeListener; cbv [bind ret gets modify call];
       destruct fc, cc, ec; reflexivity.
Qed.

Lemma dispose_keeps_documents w :
  closures (world_of (dispose w)) = closures w /\
  timers (host (world_of (dispose w))) = timers (host w) /\
  visibleEditors (host (world_of (dispose w))) = visibleEditors (host w) /\
  now (host (world_of (dispose w))) = now (host w) /\
  hasModelListenerOnResourcePath (tracker (world_of (dispose w))) =
    hasModelListenerOnResourcePath (tracker w) /\
  exists es, trace (world_of (dispose w)) = trace w ++ es.
Proof.
  destruct w as [[fc cc tc ec th ps rt fl] cs h tr].
  unfold dispose, disposeListener. cbv [bind ret gets modify call].
  destruct fc, cc, ec; cbn; split_and!; try reflexivity; eexists;
    rewrite <- ?app_assoc; try reflexivity.
  by rewrite app_nil_r.
Qed.

Lemma released_sources_gone (l : list Source) src :
  src <> ThemeSource ->
  src ∉ List.filter (fun s => negb (bool_decide (s = EditorsChangedSource)))
          (List.filter (fun s => negb (bool_decide (s = ConfigurationSource)))
             (List.filter (fun s => negb (bool_decide (s = FileChangesSource))) l)).
Proof.
  intros Hsrc. rewrite list_elem_of_In, !filter_In.
  intros (((_ & Hf) & Hc) & He).
  destruct src; done.
Qed.

(** X3: once a freshly constructed tracker is disposed, file-change,
    configuration-change and editor-set-change events no longer reach
    it: each of them leaves the world unchanged. *)
Theorem disposed_tracker_ignores_three_sources :
  forall (h : Host) (e : FileChangesEvent) (config : jsval),
    let w' := world_of (dispose (create h)) in
    step w' (FileChanged e) = w' /\
    step w' (ConfigurationUpdated config) = w' /\
    step w' EditorsChanged = w'.
Proof.
  intros h e config w'. subst w'.
  rewrite create_constructed, dispose_constructed. cbn [world_of].
  unfold step, deliver, isRegistered. cbv [bind gets].
  cbn [host logged set_tracker set_host registered with_registered constructed].
  rewrite !bool_decide_eq_false_2 by (by apply released_sources_gone).
  done.
Qed.

(** X4: [dispose] cancels no timeout and releases no document
    subscription: the closures and the pending timeouts are as before,
    and a timeout that was pending still fires afterwards and calls
    [reloadMarkdownEditors(false, resource)]. *)
Theorem dispose_leaves_timeout_and_document_listeners :
  forall (w : World) (tm : Timer) (c : Closure) (t : nat),
    timers (host w) = [tm] ->
    timer_due tm <= t ->
    closures w !! timer_closure tm = Some c ->
    let w' := world_of (dispose w) in
    closures w' = closures w /\
    timers (host w') = [tm] /\
    (Nat.max (now (host w)) (timer_due tm),
     ReloadMarkdownEditors false (Some (markdownResource c)))
      ∈ trace (step w' (ClockAdvanced t)).
Proof.
  intros w tm c t Htimers Hdue Hc w'. subst w'.
  destruct (dispose_keeps_documents w) as (Hcs & Htm & Hvis & Hnow & _ & es & Htr).
  set (wd := world_of (dispose w)) in *. clearbody wd.
  split_and!; [done | by rewrite Htm |].
  unfold step. rewrite (clock_fires _ tm c t); [|by rewrite Htm|done|by rewrite Hcs].
  cbn [world_of]. unfold fired. rewrite Hvis.
  destruct (existsb _ _); cbn; rewrite Hnow, Htr;
    apply list_elem_of_In, in_or_app; right; by left.
Qed.

(** X5: a theme change with the empty identifier makes no
    [configureMode] call but still one full reload of all previews. *)
Theorem empty_theme_change_only_reloads :
  forall (w : World),
    onDidThemeChange "" w =
    Returned tt
      (logged (ReloadMarkdownEditors true None ::
               editorReloads true None (visibleEditors (host w))) w).
Proof.
  intros w. unfold onDidThemeChange, configureMode, bind at 1. cbn [truthy].
  cbn. unfold bind. by rewrite reloadMarkdownEditors_spec.
Qed.

(** X6: whatever the host, the constructor makes the five registration
    calls, preceded by one [configureMode] call unless the current
    theme is empty; it reloads no editor although the first read of
    the configuration may report a change, and it attaches no document
    listener even when a markdown preview is already active. *)
Theorem construction_neither_reloads_nor_attaches :
  forall (h : Host) (r : string),
    let w := create h in
    effects w =
      (if String.eqb (theme h) "" then []
       else [ConfigureMode "text/x-web-markdown" (getBaseThemeId (theme h))])
      ++ registrationCalls /\
    List.filter isReloadCall (effects w) = [] /\
    closures w = [] /\
    liveContentListeners r w = [] /\
    hasModelListenerOnResourcePath (tracker w) !! r = None.
Proof.
  intros h r w. subst w. rewrite create_constructed.
  unfold effects, constructed. cbn [trace closures tracker].
  rewrite map_map. cbn [snd]. rewrite map_id.
  split_and!; try reflexivity.
  by destruct (String.eqb (theme h) "").
Qed.

(** X7: delivering the configuration that was delivered last changes
    nothing: no reload, and the world is left as it is. *)
Theorem repeated_configuration_is_ignored :
  forall (w : World) (config : jsval),
    let w1 := world_of (onConfigFileChange config w) in
    onConfigFileChange config w1 = Returned tt w1.
Proof.
  intros w config w1. subst w1.
  rewrite !onConfigFileChange_spec. cbn [world_of].
  assert (Hsame : forall x, strict_neq x x = false).
  { intros [| |s]; try done. cbn. by rewrite String.eqb_refl. }
  unfold configReload at 1. cbn [tracker logged remember set_tracker
    markdownConfigurationThumbprint with_thumbprint].
  rewrite Hsame, logged_nil.
  destruct w as [[fc cc tc ec th ps rt fl] cs h tr]. reflexivity.
Qed.

End MoreMethodFacts.

(** ** Tearing document listeners down *)

Lemma forEach_unbind s sel cs : forall pre w,
  closures w = pre ++ cs ->
  forEach (subscribersFrom (length pre) s sel cs)
          (fun l : nat * string => unbind (fst l) (snd l)) w =
  Returned tt (released s sel pre cs w).
Proof.
  induction cs as [|c rest IH]; intros pre w Hcs.
  - cbn. unfold ret, released. cbn. rewrite <- Hcs.
    by destruct w as [[] ? ? ?].
  - cbn [subscribersFrom]. fold (releasing s sel c).
    destruct (releasing s sel c) eqn:Hrel.
    + cbn [forEach fst snd]. unfold bind.
      change (unbind (length pre) (markdownResource c) w)
        with (Returned tt (world_of (unbind (length pre) (markdownResource c) w))).
      set (w1 := world_of (unbind (length pre) (markdownResource c) w)).
      assert (Hcs1 : closures w1 = (pre ++ [with_toUnbind [] c]) ++ rest).
      { subst w1. cbn. rewrite Hcs.
        rewrite <- (Nat.add_0_r (length pre)), alter_app_r. cbn.
        by rewrite <- app_assoc. }
      specialize (IH (pre ++ [with_toUnbind [] c]) w1 Hcs1).
      rewrite length_app in IH. cbn [length] in IH.
      rewrite Nat.add_1_r in IH. cbv beta iota. rewrite IH.
      f_equal. subst w1. unfold released, release. cbn. rewrite Hrel.
      destruct w as [[] ? ? ?]. cbn. by rewrite <- app_assoc.
    + assert (Hcs1 : closures w = (pre ++ [c]) ++ rest) by (by rewrite <- app_assoc).
      specialize (IH (pre ++ [c]) w Hcs1).
      rewrite length_app in IH. cbn [length] in IH.
      rewrite Nat.add_1_r in IH. rewrite IH.
      f_equal. unfold released, release. cbn. rewrite Hrel.
      by rewrite <- app_assoc.
Qed.

Lemma clearFlags_lookup s sel cs : forall (fl : gmap string bool) r,
  clearFlags s sel cs fl !! r =
  if existsb (fun c => releasing s sel c && String.eqb (markdownResource c) r) cs
  then Some false else fl !! r.
Proof.
  induction cs as [|c rest IH]; intros fl r; [done|].
  change (clearFlags s sel (c :: rest) fl)
    with (clearFlags s sel rest
            (if releasing s sel c then <[markdownResource c := false]> fl else fl)).
  cbn [existsb]. rewrite IH. destruct (existsb _ rest); [by rewrite orb_true_r|].
  rewrite orb_false_r. destruct (releasing s sel c); [|done]. cbn [andb].
  destruct (String.eqb_spec (markdownResource c) r) as [->|Hne].
  - by rewrite lookup_insert_eq.
  - by rewrite lookup_insert_ne.
Qed.

Section TeardownFacts.
Context `{Services}.

Lemma inputDisposed_spec :
  forall (w : World) (i : nat),
    let sel := releasing InputDisposeListener (onInput i) in
    let w' := step w (InputDisposed i) in
    deliver (InputDisposed i) w = Returned tt w' /\
    closures w' = map (fun c => if sel c then with_toUnbind [] c else c) (closures w) /\
    (forall r,
       hasModelListenerOnResourcePath (tracker w') !! r =
       if existsb (fun c => sel c && String.eqb (markdownResource c) r) (closures w)
       then Some false
       else hasModelListenerOnResourcePath (tracker w) !! r) /\
    host w' = host w /\
    trace w' = trace w.
Proof.
  intros w i sel w'. subst sel w'. unfold step, deliver, subscribers.
  cbv [bind gets].
  pose proof (forEach_unbind InputDisposeListener (onInput i) (closures w) [] w eq_refl)
    as Hloop.
  cbn [length] in Hloop. rewrite Hloop.
  cbn [world_of]. split_and!; try reflexivity.
  intros r. cbn. apply clearFlags_lookup.
Qed.

(** X8: when an editor input is disposed, every closure bound to it
    that still holds its subscriptions loses all of them and its
    document is marked as not listened to; the other closures, the
    pending timeouts, the host and the log are untouched: no timeout
    is cancelled and no service is called. *)
Theorem input_dispose_releases_its_closures :
  forall (w : World) (i : nat),
    let sel := releasing InputDisposeListener (onInput i) in
    let w' := step w (InputDisposed i) in
    deliver (InputDisposed i) w = Returned tt w' /\
    closures w' = map (fun c => if sel c then with_toUnbind [] c else c) (closures w) /\
    (forall r,
       hasModelListenerOnResourcePath (tracker w') !! r =
       if existsb (fun c => sel c && String.eqb (markdownResource c) r) (closures w)
       then Some false
       else hasModelListenerOnResourcePath (tracker w) !! r) /\
    host w' = host w /\
    trace w' = trace w.
Proof.
  intros w i sel w'. subst sel w'. unfold step, deliver, subscribers.
  cbv [bind gets].
  pose proof (forEach_unbind InputDisposeListener (onInput i) (closures w) [] w eq_refl)
    as Hloop.
  cbn [length] in Hloop. rewrite Hloop.
  cbn [world_of]. split_and!; try reflexivity.
  intros r. cbn. apply clearFlags_lookup.
Qed.

Lemma onEditorsChanged_without_model w input r :
  activeInput (host w) = Some input ->
  input_markdown input = Some r ->
  r ∉ models (host w) ->
  onEditorsChanged w = Returned tt w.
Proof.
  intros Hactive Hmd Hmodel. unfold onEditorsChanged. cbv [bind gets].
  rewrite Hactive, Hmd. by rewrite bool_decide_eq_false_2.
Qed.

Lemma modelWillDispose_spec :
  forall (w : World) (r : string),
    let sel := releasing ModelDisposeListener (onResource r) in
    let w' := step w (ModelWillDispose r) in
    deliver (ModelWillDispose r) w = Returned tt w' /\
    closures w' = map (fun c => if sel c then with_toUnbind [] c else c) (closures w) /\
    (forall r',
       hasModelListenerOnResourcePath (tracker w') !! r' =
       if existsb (fun c => sel c && String.eqb (markdownResource c) r') (closures w)
       then Some false
       else hasModelListenerOnResourcePath (tracker w) !! r') /\
    models (host w') = models (host w) ∖ {[r]} /\
    timers (host w') = timers (host w) /\
    trace w' = trace w.
Proof.
  intros w r sel w'. subst sel w'. unfold step, deliver, subscribers.
  cbv [bind gets].
  pose proof (forEach_unbind ModelDisposeListener (onResource r) (closures w) [] w eq_refl)
    as Hloop.
  cbn [length] in Hloop. rewrite Hloop.
  cbn [world_of modify]. split_and!; try reflexivity.
  intros r'. cbn. apply clearFlags_lookup.
Qed.

(** X9: when the model of a document is disposed, every closure of the
    document that still holds its subscriptions loses all of them, the
    document is marked as not listened to and its model is gone; no
    timeout is cancelled and no service is called. *)
Theorem model_dispose_releases_its_closures :
  forall (w : World) (r : string),
    let sel := releasing ModelDisposeListener (onResource r) in
    let w' := step w (ModelWillDispose r) in
    deliver (ModelWillDispose r) w = Returned tt w' /\
    closures w' = map (fun c => if sel c then with_toUnbind [] c else c) (closures w) /\
    (forall r',
       hasModelListenerOnResourcePath (tracker w') !! r' =
       if existsb (fun c => sel c && String.eqb (markdownResource c) r') (closures w)
       then Some false
       else hasModelListenerOnResourcePath (tracker w) !! r') /\
    models (host w') = models (host w) ∖ {[r]} /\
    timers (host w') = timers (host w) /\
    trace w' = trace w.
Proof.
  intros w r sel w'. subst sel w'. unfold step, deliver, subscribers.
  cbv [bind gets].
  pose proof (forEach_unbind ModelDisposeListener (onResource r) (closures w) [] w eq_refl)
    as Hloop.
  cbn [length] in Hloop. rewrite Hloop.
  cbn [world_of modify]. split_and!; try reflexivity.
  intros r'. cbn. apply clearFlags_lookup.
Qed.

Lemma onEditorsChanged_attached w input r :
  activeInput (host w) = Some input ->
  input_markdown input = Some r ->
  r ∈ models (host w) ->
  flag_truthy (hasModelListenerOnResourcePath (tracker w) !! r) = false ->
  onEditorsChanged w = Returned tt (attached input r w).
Proof.
  intros Hactive Hmd Hmodel Hflag.
  unfold onEditorsChanged, push. cbv [bind gets modify].
  rewrite Hactive, Hmd, Hflag. rewrite bool_decide_eq_true_2 by done.
  cbn [andb negb]. unfold attached. f_equal.
  clear. destruct w as [t cs h tr]. unfold set_closures, set_tracker. cbn.
  rewrite <- (Nat.add_0_r (length cs)), !alter_app_r. reflexivity.
Qed.

Lemma onEditorsChanged_cases w :
  onEditorsChanged w = Returned tt w \/
  exists input r,
    activeInput (host w) = Some input /\ input_markdown input = Some r /\
    flag_truthy (hasModelListenerOnResourcePath (tracker w) !! r) = false /\
    onEditorsChanged w = Returned tt (attached input r w).
Proof.
  destruct (activeInput (host w)) as [input|] eqn:Hactive.
  2:{ left. apply onEditorsChanged_other. by rewrite Hactive. }
  destruct (input_markdown input) as [r|] eqn:Hmd.
  2:{ left. apply onEditorsChanged_other. by rewrite Hactive. }
  destruct (decide (r ∈ models (host w))) as [Hmodel|Hmodel].
  2:{ left. by apply (onEditorsChanged_without_model w input r). }
  destruct (flag_truthy (hasModelListenerOnResourcePath (tracker w) !! r)) eqn:Hflag.
  - left. apply (onEditorsChanged_marked w input r); [done|done|].
    by destruct (hasModelListenerOnResourcePath (tracker w) !! r) as [[]|].
  - right. exists input, r. split_and!; [done|done|done|].
    by apply onEditorsChanged_attached.
Qed.

(** X10: [onEditorsChanged] is idempotent: run a second time in the
    same host it attaches nothing and leaves the world as it is, so a
    repeated editor-set change cannot attach a second listener. *)
Theorem editors_changed_twice_attaches_once :
  forall (w : World),
    let w1 := world_of (onEditorsChanged w) in
    onEditorsChanged w1 = Returned tt w1.
Proof.
  intros w w1. subst w1.
  destruct (onEditorsChanged_cases w) as [Hsame | (input & r & Hactive & Hmd & _ & Hrun)].
  - by rewrite !Hsame.
  - rewrite Hrun. cbn [world_of].
    apply (onEditorsChanged_marked _ input r); [done|done|].
    cbn. apply lookup_insert_eq.
Qed.

Lemma subscribersFrom_app s sel cs1 cs2 : forall i,
  subscribersFrom i s sel (cs1 ++ cs2) =
  subscribersFrom i s sel cs1 ++ subscribersFrom (i + length cs1) s sel cs2.
Proof.
  induction cs1 as [|c rest IH]; intros i; cbn.
  - by rewrite Nat.add_0_r.
  - rewrite IH, <- Nat.add_succ_comm.
    by destruct (sel c && bool_decide (s ∈ toUnbind c)).
Qed.

Lemma no_listener_after_release r s' sel' cs : forall i,
  subscribersFrom i ContentListener (onResource r) cs = [] ->
  subscribersFrom i ContentListener (onResource r) (map (release s' sel') cs) = [].
Proof.
  induction cs as [|c rest IH]; intros i Hnone; [done|].
  cbn [subscribersFrom] in Hnone.
  destruct (onResource r c && bool_decide (ContentListener ∈ toUnbind c)) eqn:Hc;
    [done|].
  assert (Hrc : onResource r (release s' sel' c) &&
                bool_decide (ContentListener ∈ toUnbind (release s' sel' c)) = false).
  { unfold release. destruct (releasing s' sel' c); [|exact Hc].
    cbn. by rewrite andb_false_r. }
  cbn [map subscribersFrom]. rewrite Hrc. by apply IH.
Qed.

(** X11: a listener torn down when its input is disposed is attached
    again, once, by the next editor-set change.  For a document without
    content listener whose preview is active: [onEditorsChanged]
    attaches one closure and the document has exactly one content
    listener; the disposal of the input leaves it with none and marks
    it as not listened to; the next [onEditorsChanged] attaches a
    fresh closure, again the only content listener of the document. *)
Theorem input_dispose_then_reattach :
  forall (w : World) (input : EditorInput) (r : string),
    activeInput (host w) = Some input ->
    input_markdown input = Some r ->
    r ∈ models (host w) ->
    flag_truthy (hasModelListenerOnResourcePath (tracker w) !! r) = false ->
    liveContentListeners r w = [] ->
    let n := length (closures w) in
    let w1 := world_of (onEditorsChanged w) in
    let w2 := step w1 (InputDisposed (input_id input)) in
    let w3 := world_of (onEditorsChanged w2) in
    liveContentListeners r w1 = [(n, r)] /\
    liveContentListeners r w2 = [] /\
    hasModelListenerOnResourcePath (tracker w2) !! r = Some false /\
    liveContentListeners r w3 = [(S n, r)] /\
    hasModelListenerOnResourcePath (tracker w3) !! r = Some true.
Proof.
  intros w input r Hactive Hmd Hmodel Hflag Hnone n w1 w2 w3.
  assert (Hw1 : w1 = attached input r w).
  { subst w1. by rewrite (onEditorsChanged_attached w input r). }
  destruct (inputDisposed_spec w1 (input_id input))
    as (_ & Hcs2 & Hfl2 & Hhost2 & _).
  fold w2 in Hcs2, Hfl2, Hhost2.
  change (closures w2 = map (release InputDisposeListener (onInput (input_id input)))
                          (closures w1)) in Hcs2.
  assert (Hlive1 : liveContentListeners r w1 = [(n, r)]).
  { rewrite Hw1. unfold liveContentListeners in *. cbn.
    rewrite subscribersFrom_app, Hnone. cbn.
    unfold onResource. cbn. by rewrite String.eqb_refl. }
  assert (Hlive2 : liveContentListeners r w2 = []).
  { unfold liveContentListeners in *. rewrite Hcs2, Hw1.
    cbn [closures attached set_tracker set_closures].
    rewrite map_app, subscribersFrom_app.
    rewrite (no_listener_after_release r InputDisposeListener
               (onInput (input_id input)) (closures w) 0 Hnone).
    cbn. unfold release, releasing, onInput, onResource. cbn.
    rewrite ?Nat.eqb_refl, ?String.eqb_refl. cbn.
    rewrite ?andb_false_r. done. }
  assert (Hflag2 : hasModelListenerOnResourcePath (tracker w2) !! r = Some false).
  { rewrite Hfl2, Hw1. cbn. rewrite existsb_app. cbn.
    unfold releasing, onInput. cbn.
    by rewrite Nat.eqb_refl, String.eqb_refl, orb_true_r. }
  assert (Hw3 : w3 = attached input r w2).
  { subst w3. rewrite (onEditorsChanged_attached w2 input r); try done.
    - rewrite Hhost2, Hw1. exact Hactive.
    - rewrite Hhost2, Hw1. exact Hmodel.
    - by rewrite Hflag2. }
  split_and!; try done.
  - rewrite Hw3. unfold liveContentListeners in *. cbn.
    rewrite subscribersFrom_app, Hlive2. cbn.
    unfold onResource. cbn. rewrite String.eqb_refl. cbn.
    rewrite Hcs2, length_map, Hw1. cbn. rewrite length_app. cbn.
    subst n. by rewrite Nat.add_1_r.
  - rewrite Hw3. cbn. apply lookup_insert_eq.
Qed.

(** X12: a listener torn down when its model is disposed is not
    attached again before the document has a model.  For a document
    without content listener whose preview is active: after
    [onEditorsChanged] and the disposal of the model the document has
    no content listener and is marked as not listened to;
    [onEditorsChanged] then attaches nothing; once a model exists
    again it attaches a fresh closure, the only content listener of
    the document. *)
Theorem model_dispose_then_reattach :
  forall (w : World) (input : EditorInput) (r : string),
    activeInput (host w) = Some input ->
    input_markdown input = Some r ->
    r ∈ models (host w) ->
    flag_truthy (hasModelListenerOnResourcePath (tracker w) !! r) = false ->
    liveContentListeners r w = [] ->
    let n := length (closures w) in
    let w1 := world_of (onEditorsChanged w) in
    let w2 := step w1 (ModelWillDispose r) in
    let w3 := world_of (onEditorsChanged (step w2 (ModelCreated r))) in
    liveContentListeners r w2 = [] /\
    hasModelListenerOnResourcePath (tracker w2) !! r = Some false /\
    onEditorsChanged w2 = Returned tt w2 /\
    liveContentListeners r w3 = [(S n, r)] /\
    hasModelListenerOnResourcePath (tracker w3) !! r = Some true.
Proof.
  intros w input r Hactive Hmd Hmodel Hflag Hnone n w1 w2 w3.
  assert (Hw1 : w1 = attached input r w).
  { subst w1. by rewrite (onEditorsChanged_attached w input r). }
  destruct (modelWillDispose_spec w1 r)
    as (Hrun2 & Hcs2 & Hfl2 & Hmodels2 & _ & _).
  fold w2 in Hrun2, Hcs2, Hfl2, Hmodels2.
  change (closures w2 = map (release ModelDisposeListener (onResource r))
                          (closures w1)) in Hcs2.
  assert (Hactive2 : activeInput (host w2) = Some input).
  { subst w2. unfold step. rewrite Hrun2. cbn [world_of].
    revert Hrun2. unfold deliver, subscribers. cbv [bind gets].
    pose proof (forEach_unbind ModelDisposeListener (onResource r) (closures w1) [] w1 eq_refl)
      as Hloop.
    cbn [length] in Hloop. rewrite Hloop. cbn [modify].
    intros [= <-]. cbn. rewrite Hw1. exact Hactive. }
  assert (Hlive2 : liveContentListeners r w2 = []).
  { unfold liveContentListeners in *. rewrite Hcs2, Hw1.
    cbn [closures attached set_tracker set_closures].
    rewrite map_app, subscribersFrom_app.
    rewrite (no_listener_after_release r ModelDisposeListener
               (onResource r) (closures w) 0 Hnone).
    cbn. unfold release, releasing, onInput, onResource. cbn.
    rewrite ?Nat.eqb_refl, ?String.eqb_refl. cbn.
    rewrite ?andb_false_r. done. }
  assert (Hflag2 : hasModelListenerOnResourcePath (tracker w2) !! r = Some false).
  { rewrite Hfl2, Hw1. cbn. rewrite existsb_app. cbn.
    unfold releasing, onResource. cbn.
    by rewrite String.eqb_refl, orb_true_r. }
  assert (Hw3 : w3 = attached input r (step w2 (ModelCreated r))).
  { subst w3. rewrite (onEditorsChanged_attached _ input r); try done.
    - cbn. by apply elem_of_union_l, elem_of_singleton.
    - cbn. by rewrite Hflag2. }
  split_and!; try done.
  - apply (onEditorsChanged_without_model w2 input r); [done|done|].
    rewrite Hmodels2. intros [_ Hnot]%elem_of_difference.
    apply Hnot. by apply elem_of_singleton.
  - rewrite Hw3. unfold liveContentListeners in *. cbn.
    rewrite subscribersFrom_app, Hlive2. cbn.
    unfold onResource. cbn. rewrite String.eqb_refl. cbn.
    rewrite Hcs2, length_map, Hw1. cbn. rewrite length_app. cbn.
    subst n. by rewrite Nat.add_1_r.
  - rewrite Hw3. cbn. apply lookup_insert_eq.
Qed.

End TeardownFacts.

(** ** More on the debounce timer *)

Section DebounceFacts.
Context `{Services}.

(** The timeout armed by a burst fires once the clock has passed it. *)
Lemma armed_fires r w0 w1 tN T :
  Armed r w0 w1 tN ->
  tN + RELOAD_MARKDOWN_DELAY <= T ->
  let w2 := step w1 (ClockAdvanced T) in
  (exists new, trace w2 = trace w0 ++ new /\
               reloadCalls new =
                 [(tN + RELOAD_MARKDOWN_DELAY, ReloadMarkdownEditors false (Some r))]) /\
  TimersOk w2 /\
  timers (host w2) = [] /\
  now (host w2) = T /\
  visibleEditors (host w2) = visibleEditors (host w0) /\
  (existsb (isReloadTarget (Some r)) (visibleEditors (host w0)) = true ->
   closures w2 = closures w0).
Proof.
  intros (Hok1 & Hnow1 & Hcs1 & Hvis1 & (tm & c & Htm & Hdue1 & Hc & Hr)
          & (new & Htrace & Hnew)) HT w2.
  subst w2. unfold step.
  rewrite (clock_fires w1 tm c T) by (rewrite ?Hcs1; first [done | lia]).
  cbn [world_of]. unfold fired. rewrite Hr, Hvis1.
  split_and!.
  - exists (new ++ map (pair (Nat.max (now (host w1)) (timer_due tm)))
              (ReloadMarkdownEditors false (Some r) ::
               editorReloads false (Some r) (visibleEditors (host w0)))).
    split.
    + destruct (existsb _ _); cbn; by rewrite Htrace, <- app_assoc.
    + rewrite reloadCalls_app, Hnew. cbn [map app].
      unfold reloadCalls at 1. cbn [List.filter snd isReloadCall].
      fold (reloadCalls (map (pair (Nat.max (now (host w1)) (timer_due tm)))
              (editorReloads false (Some r) (visibleEditors (host w0))))).
      rewrite reloadCalls_editorReloads.
      replace (Nat.max (now (host w1)) (timer_due tm))
        with (tN + RELOAD_MARKDOWN_DELAY) by lia.
      done.
  - destruct Hok1 as [Hpos _]. unfold TimersOk.
    destruct (existsb _ _); cbn; by split.
  - by destruct (existsb _ _).
  - destruct (existsb _ _); cbn; lia.
  - destruct (existsb _ _); cbn; exact Hvis1.
  - intros ->. cbn. exact Hcs1.
Qed.

(** X13: the tracker has one timeout for all documents.  When document
    [b] is edited less than the debounce delay after document [a], the
    pending reload of [a] is cancelled: the only call of
    [reloadMarkdownEditors] that follows is the one for [b], a full
    delay after the edit of [b]. *)
Theorem edit_of_other_document_cancels_pending_reload :
  forall (w : World) (a b : string) (t1 t2 T : nat),
    TimersOk w ->
    liveContentListeners a w <> [] ->
    liveContentListeners b w <> [] ->
    now (host w) <= t1 ->
    (forall tm, tm ∈ timers (host w) -> t1 < timer_due tm) ->
    t1 <= t2 -> t2 < t1 + RELOAD_MARKDOWN_DELAY ->
    t2 + RELOAD_MARKDOWN_DELAY <= T ->
    let w' := run w [ClockAdvanced t1; ContentChanged a;
                     ClockAdvanced t2; ContentChanged b;
                     ClockAdvanced T] in
    exists new,
      trace w' = trace w ++ new /\
      reloadCalls new =
        [(t2 + RELOAD_MARKDOWN_DELAY, ReloadMarkdownEditors false (Some b))].
Proof.
  intros w a b t1 t2 T Hok Ha Hb Hnow Hdue H12 H21 HT w'. subst w'.
  cbn [run fold_left].
  assert (Harmed1 : Armed a w (step (step w (ClockAdvanced t1)) (ContentChanged a)) t1).
  { apply (arm a w w t1 []); auto. by rewrite app_nil_r. }
  set (w1 := step (step w (ClockAdvanced t1)) (ContentChanged a)) in *.
  destruct Harmed1 as (Hok1 & Hnow1 & Hcs1 & Hvis1 & (tm & c & Htm & Hdue1 & _)
                       & (new & Htrace & Hnew)).
  assert (Harmed2 : Armed b w (step (step w1 (ClockAdvanced t2)) (ContentChanged b)) t2).
  { apply (arm b w w1 t2 new); auto; [lia|].
    rewrite Htm. intros tm' ->%list_elem_of_singleton. lia. }
  by destruct (armed_fires b w _ t2 T Harmed2 HT) as (Hreload & _).
Qed.

(** X14: edits of a document that are a full debounce delay or more
    apart are not merged.  While a preview of the document is visible,
    an edit at [t1] and an edit at [t2], at least a delay later, give
    two calls of [reloadMarkdownEditors(false, resource)], each a full
    delay after its edit. *)
Theorem edits_a_delay_apart_reload_twice :
  forall (w : World) (r : string) (t1 t2 T : nat),
    TimersOk w ->
    liveContentListeners r w <> [] ->
    (exists e, e ∈ visibleEditors (host w) /\ ReloadTarget (Some r) e) ->
    now (host w) <= t1 ->
    (forall tm, tm ∈ timers (host w) -> t1 < timer_due tm) ->
    t1 + RELOAD_MARKDOWN_DELAY <= t2 ->
    t2 + RELOAD_MARKDOWN_DELAY <= T ->
    let w' := run w [ClockAdvanced t1; ContentChanged r;
                     ClockAdvanced t2; ContentChanged r;
                     ClockAdvanced T] in
    exists new,
      trace w' = trace w ++ new /\
      reloadCalls new =
        [(t1 + RELOAD_MARKDOWN_DELAY, ReloadMarkdownEditors false (Some r));
         (t2 + RELOAD_MARKDOWN_DELAY, ReloadMarkdownEditors false (Some r))].
Proof.
  intros w r t1 t2 T Hok Hlive (e & He & Htarget) Hnow Hdue H12 HT w'. subst w'.
  cbn [run fold_left].
  assert (Hvisible : existsb (isReloadTarget (Some r)) (visibleEditors (host w)) = true).
  { apply existsb_exists. exists e. split; [by apply list_elem_of_In|].
    by apply isReloadTarget_spec. }
  assert (Harmed1 : Armed r w (step (step w (ClockAdvanced t1)) (ContentChanged r)) t1).
  { apply (arm r w w t1 []); auto. by rewrite app_nil_r. }
  set (w1 := step (step w (ClockAdvanced t1)) (ContentChanged r)) in *.
  destruct (armed_fires r w w1 t1 t2 Harmed1 H12)
    as ((new1 & Htrace1 & Hnew1) & Hok2 & Htimers2 & Hnow2 & Hvis2 & Hcs2).
  set (w2 := step w1 (ClockAdvanced t2)) in *. clearbody w2.
  specialize (Hcs2 Hvisible).
  assert (Hlive2 : liveContentListeners r w2 <> []).
  { unfold liveContentListeners in *. by rewrite Hcs2. }
  assert (Harmed3 : Armed r w2 (step w2 (ContentChanged r)) t2).
  { assert (Hidle : step w2 (ClockAdvanced t2) = w2).
    { unfold step. rewrite clock_idle; [|done|].
      - cbn [world_of]. unfold set_host, with_now. rewrite Hnow2, Nat.max_id.
        clear -Hnow2. destruct w2 as [tk cs [] tr]. cbn in *. by subst.
      - rewrite Htimers2. by intros tm ?%elem_of_nil. }
    rewrite <- Hidle at 2.
    apply (arm r w2 w2 t2 []); auto; [by rewrite app_nil_r | lia |].
    rewrite Htimers2. by intros tm ?%elem_of_nil. }
  destruct (armed_fires r w2 _ t2 T Harmed3 HT) as ((new2 & Htrace2 & Hnew2) & _).
  exists (new1 ++ new2). split.
  - by rewrite Htrace2, Htrace1, app_assoc.
  - by rewrite reloadCalls_app, Hnew1, Hnew2.
Qed.

End DebounceFacts.

(** ** Consistency of the listener bookkeeping *)

Lemma at_most_one_subscriber s sel cs : forall i,
  (forall j k cj ck, cs !! j = Some cj -> cs !! k = Some ck ->
     sel cj = true -> sel ck = true ->
     s ∈ toUnbind cj -> s ∈ toUnbind ck -> j = k) ->
  length (subscribersFrom i s sel cs) <= 1.
Proof.
  induction cs as [|c rest IH]; intros i Huniq; cbn; [lia|].
  destruct (sel c) eqn:Hsel; cbn.
  - destruct (decide (s ∈ toUnbind c)) as [Hin|Hnot].
    + rewrite bool_decide_eq_true_2 by done. cbn.
      rewrite subscribersFrom_nil; [cbn; lia|].
      intros j c' Hj Hsel' Hin'.
      by specialize (Huniq 0 (S j) c c' eq_refl Hj Hsel Hsel' Hin Hin').
    + rewrite bool_decide_eq_false_2 by done. apply IH.
      intros j k cj ck Hj Hk ? ? ? ?.
      assert (S j = S k) by (by apply (Huniq (S j) (S k) cj ck)). lia.
  - apply IH. intros j k cj ck Hj Hk ? ? ? ?.
    assert (S j = S k) by (by apply (Huniq (S j) (S k) cj ck)). lia.
Qed.

Lemma Consistent_at_most_one w r :
  Consistent w -> length (liveContentListeners r w) <= 1.
Proof.
  intros (_ & Huniq & _ & _). apply at_most_one_subscriber.
  intros j k cj ck Hj Hk Hsj Hsk Hinj Hink.
  apply (Huniq j k cj ck); try done.
  unfold onResource in *. apply String.eqb_eq in Hsj, Hsk. congruence.
Qed.

Lemma Consistent_same w w' :
  closures w' = closures w ->
  hasModelListenerOnResourcePath (tracker w') = hasModelListenerOnResourcePath (tracker w) ->
  timers (host w') = timers (host w) ->
  Consistent w -> Consistent w'.
Proof.
  intros Hcs Hfl Htm (H1 & H2 & H3 & H4). unfold Consistent.
  rewrite Hcs, Hfl, Htm. by split_and!.
Qed.

Lemma lookup_map {A B} (f : A -> B) (l : list A) : forall i,
  map f l !! i = f <$> l !! i.
Proof.
  induction l as [|x l IH]; intros [|i]; cbn; auto.
Qed.

Lemma released_listener s sel c :
  ContentListener ∈ toUnbind (release s sel c) ->
  releasing s sel c = false /\ release s sel c = c.
Proof.
  unfold release. destruct (releasing s sel c); [|done].
  cbn. by intros ?%elem_of_nil.
Qed.

Lemma Consistent_attached w input r :
  Consistent w ->
  flag_truthy (hasModelListenerOnResourcePath (tracker w) !! r) = false ->
  Consistent (attached input r w).
Proof.
  intros (Hall & Huniq & Hflag & Htimer) Hfree.
  assert (Hother : forall i c, closures w !! i = Some c ->
            ContentListener ∈ toUnbind c -> markdownResource c <> r).
  { intros i c Hi Hin Heq. specialize (Hflag i c Hi Hin).
    rewrite Heq in Hflag. by rewrite Hflag in Hfree. }
  unfold Consistent, attached. cbn. split_and!.
  - intros i c [[_ Hi] | [_ <-]]%lookup_snoc_Some; [by apply (Hall i)|].
    by right.
  - intros i j ci cj [[_ Hi] | [-> <-]]%lookup_snoc_Some
                     [[_ Hj] | [-> <-]]%lookup_snoc_Some Hres Hini Hinj;
      cbn in *; try done.
    + by apply (Huniq i j ci cj).
    + by destruct (Hother i ci Hi Hini).
    + by destruct (Hother j cj Hj Hinj).
  - intros i c [[_ Hi] | [_ <-]]%lookup_snoc_Some Hin; cbn.
    + rewrite lookup_insert_ne; [by apply (Hflag i) | ].
      intros Heq. by apply (Hother i c Hi Hin).
    + apply lookup_insert_eq.
  - intros tm Htm. destruct (Htimer tm Htm) as (c & Hc & Hin).
    exists c. split; [|done]. apply lookup_app_l_Some. exact Hc.
Qed.

Lemma Consistent_released s sel w :
  Consistent w ->
  timers (host w) = [] ->
  Consistent (released s sel [] (closures w) w).
Proof.
  intros (Hall & Huniq & Hflag & Htimer) Hquiet.
  unfold Consistent, released. cbn. split_and!.
  - intros i c. rewrite lookup_map.
    destruct (closures w !! i) as [c0|] eqn:Hi; [|done].
    intros [= <-]. unfold release. destruct (releasing s sel c0); [by left|].
    by apply (Hall i).
  - intros i j ci cj. rewrite !lookup_map.
    destruct (closures w !! i) as [ci0|] eqn:Hi; [|done].
    destruct (closures w !! j) as [cj0|] eqn:Hj; [|done].
    intros [= <-] [= <-] Hres Hini Hinj.
    destruct (released_listener _ _ _ Hini) as [_ Hci].
    destruct (released_listener _ _ _ Hinj) as [_ Hcj].
    rewrite Hci in Hres, Hini. rewrite Hcj in Hres, Hinj.
    by apply (Huniq i j ci0 cj0).
  - intros i c. rewrite lookup_map.
    destruct (closures w !! i) as [c0|] eqn:Hi; [|done].
    intros [= <-] Hin0.
    destruct (released_listener _ _ _ Hin0) as [Hkept Hc0].
    rewrite Hc0 in Hin0 |- *. rename Hin0 into Hin.
    rewrite clearFlags_lookup.
    destruct (existsb _ _) eqn:Hex; [|by apply (Hflag i)].
    apply existsb_exists in Hex as (c1 & Hc1 & [Hrel Hres]%andb_prop).
    apply list_elem_of_In, list_elem_of_lookup in Hc1 as [k Hk].
    apply String.eqb_eq in Hres.
    assert (Hlive1 : ContentListener ∈ toUnbind c1).
    { unfold releasing in Hrel. apply andb_prop in Hrel as [_ Hsub].
      apply bool_decide_eq_true in Hsub.
      destruct (Hall k c1 Hk) as [Hnone | Hfull].
      - rewrite Hnone in Hsub. by apply elem_of_nil in Hsub.
      - rewrite Hfull. by left. }
    assert (k = i) by (by apply (Huniq k i c1 c0)). subst k.
    rewrite Hi in Hk. injection Hk as <-. by rewrite Hrel in Hkept.
  - rewrite Hquiet. by intros tm ?%elem_of_nil.
Qed.

Lemma Consistent_scheduled id b es w c :
  Consistent w ->
  closures w !! b = Some c -> ContentListener ∈ toUnbind c ->
  Consistent (scheduled id b es w).
Proof.
  intros (Hall & Huniq & Hflag & _) Hb Hin.
  unfold Consistent, scheduled. cbn. split_and!; try done.
  intros tm ->%list_elem_of_singleton. by exists c.
Qed.

Section ConsistencyFacts.
Context `{Services}.

Lemma Consistent_fired tm c t w :
  Consistent w ->
  timers (host w) = [tm] ->
  closures w !! timer_closure tm = Some c ->
  Consistent (fired tm c t w).
Proof.
  intros (Hall & Huniq & Hflag & Htimer) Htm Hc.
  assert (Hlive : ContentListener ∈ toUnbind c).
  { destruct (Htimer tm) as (c' & Hc' & Hin); [rewrite Htm; by left|].
    rewrite Hc in Hc'. by injection Hc' as <-. }
  unfold fired. destruct (existsb _ _).
  - unfold Consistent. cbn. split_and!; try done.
    by intros tm' ?%elem_of_nil.
  - unfold Consistent. cbn. split_and!.
    + intros i c'. destruct (decide (i = timer_closure tm)) as [->|Hne].
      * rewrite list_lookup_alter_eq, Hc. intros [= <-]. by left.
      * rewrite list_lookup_alter_ne by done. by apply Hall.
    + intros i j ci cj.
      destruct (decide (i = timer_closure tm)) as [->|Hi].
      { rewrite list_lookup_alter_eq, Hc. intros [= <-] _ _ Hin. cbn in Hin.
        by apply elem_of_nil in Hin. }
      destruct (decide (j = timer_closure tm)) as [->|Hj].
      { rewrite list_lookup_alter_eq, Hc. intros _ [= <-] _ _ Hin. cbn in Hin.
        by apply elem_of_nil in Hin. }
      rewrite !list_lookup_alter_ne by done. by apply Huniq.
    + intros i c'. destruct (decide (i = timer_closure tm)) as [->|Hi].
      { rewrite list_lookup_alter_eq, Hc. intros [= <-] Hin. cbn in Hin.
        by apply elem_of_nil in Hin. }
      rewrite list_lookup_alter_ne by done. intros Hc' Hin.
      rewrite lookup_insert_ne; [by apply (Hflag i)|].
      intros Heq. apply Hi. by apply (Huniq i (timer_closure tm) c' c).
    + by intros tm' ?%elem_of_nil.
Qed.

Lemma onFileChanges_logged e w :
  exists es, onFileChanges e w = Returned tt (logged es w).
Proof.
  unfold onFileChanges, bind at 1, gets.
  destruct (negb _); [|exists []; by rewrite logged_nil].
  unfold bind at 1. rewrite resolveAll_spec.
  destruct (containsAny _ _ _).
  - unfold bind. rewrite reloadMarkdownEditors_spec. unfold ret.
    rewrite logged_logged. eauto.
  - unfold ret. eauto.
Qed.

Lemma onDidThemeChange_logged themeId w :
  exists es, onDidThemeChange themeId w = Returned tt (logged es w).
Proof.
  unfold onDidThemeChange, configureMode, bind at 1.
  destruct (truthy (JStr themeId)); cbn [when].
  - rewrite call_logged. unfold bind. rewrite reloadMarkdownEditors_spec.
    unfold ret. rewrite logged_logged. eauto.
  - unfold ret at 1. unfold bind. rewrite reloadMarkdownEditors_spec.
    unfold ret. eauto.
Qed.

(** Every event keeps the bookkeeping consistent, provided inputs and
    models are not disposed while a timeout is pending. *)
Lemma step_Consistent w ev :
  TimersOk w -> Consistent w ->
  (isDisposal ev = true -> timers (host w) = []) ->
  Consistent (step w ev).
Proof.
  intros Hok Hcons Hquiet. unfold step.
  destruct ev as [e|config|themeId| |r|i|r|r|active visible|t| ].
  - cbn [deliver]. unfold isRegistered, bind, gets. destruct (bool_decide _); [|done].
    destruct (onFileChanges_logged e w) as (es & ->). cbn [world_of].
    by apply (Consistent_same w).
  - cbn [deliver]. unfold isRegistered, bind, gets. destruct (bool_decide _); [|done].
    rewrite onConfigFileChange_spec. cbn [world_of].
    by apply (Consistent_same w).
  - cbn [deliver]. unfold isRegistered, bind, gets. destruct (bool_decide _); [|done].
    destruct (onDidThemeChange_logged themeId w) as (es & ->). cbn [world_of].
    by apply (Consistent_same w).
  - cbn [deliver]. unfold isRegistered, bind, gets. destruct (bool_decide _); [|done].
    destruct (onEditorsChanged_cases w) as [-> | (input & r & _ & _ & Hfree & ->)];
      [done|].
    cbn [world_of]. by apply Consistent_attached.
  - cbn [deliver]. unfold subscribers, bind at 1, gets.
    destruct (subscribersFrom 0 ContentListener (onResource r) (closures w))
      as [|l ls] eqn:Hls; [done|].
    destruct (contentListeners_spec (l :: ls) w Hok) as (id & b & es & -> & _ & Hb & _);
      [done|].
    rewrite <- Hls in Hb.
    apply subscribersFrom_lookup in Hb as (c & Hc & _ & _ & Hin).
    rewrite Nat.sub_0_r in Hc. cbn [world_of].
    by apply (Consistent_scheduled id b es w c).
  - cbn [deliver]. unfold subscribers. cbv [bind gets].
    pose proof (forEach_unbind InputDisposeListener (onInput i) (closures w) [] w eq_refl)
      as Hloop.
    cbn [length] in Hloop. rewrite Hloop. cbn [world_of].
    apply Consistent_released; [done | by apply Hquiet].
  - cbn [deliver]. unfold subscribers. cbv [bind gets modify].
    pose proof (forEach_unbind ModelDisposeListener (onResource r) (closures w) [] w eq_refl)
      as Hloop.
    cbn [length] in Hloop. rewrite Hloop. cbn [world_of].
    apply (Consistent_same (released ModelDisposeListener (onResource r) [] (closures w) w));
      try done.
    apply Consistent_released; [done | by apply Hquiet].
  - cbn. by apply (Consistent_same w).
  - cbn. by apply (Consistent_same w).
  - destruct (timers (host w)) as [|tm [|tm' rest]] eqn:Htimers.
    + rewrite clock_idle; [|done|]. 2:{ rewrite Htimers. by intros tm' ?%elem_of_nil. }
      cbn [world_of]. by apply (Consistent_same w).
    + destruct (Nat.leb_spec (timer_due tm) t) as [Hdue|Hlater].
      * destruct Hcons as (Hall & Huniq & Hflag & Htimer).
        destruct (Htimer tm) as (c & Hc & Hin); [rewrite Htimers; by left|].
        rewrite (clock_fires w tm c t) by done. cbn [world_of].
        by apply Consistent_fired.
      * rewrite clock_idle; [|done|].
        2:{ rewrite Htimers. intros tm' ->%list_elem_of_singleton. lia. }
        cbn [world_of]. by apply (Consistent_same w).
    + destruct Hok as [_ Hok]. by rewrite Htimers in Hok.
  - cbn [deliver]. destruct (dispose_keeps_documents w) as (Hcs & Htm & _ & _ & Hfl & _).
    by apply (Consistent_same w).
Qed.

Lemma run_Consistent evs : forall w,
  TimersOk w -> Consistent w -> quietDisposals w evs ->
  TimersOk (run w evs) /\ Consistent (run w evs).
Proof.
  induction evs as [|ev rest IH]; intros w Hok Hcons Hquiet; [done|].
  destruct Hquiet as [Hev Hrest]. cbn [run fold_left].
  apply IH; [by apply step_TimersOk | by apply step_Consistent | done].
Qed.

(** X16: as long as no input and no model is disposed while a timeout
    is pending, every document has at most one content listener in
    every state of a run from construction, and a document that has
    one is marked in [hasModelListenerOnResourcePath]. *)
Theorem one_listener_per_document_without_disposal_during_timeout :
  forall config themeId ms active visible (evs : list Event) (r : string),
    let w0 := create (startup config themeId ms active visible) in
    quietDisposals w0 evs ->
    length (liveContentListeners r (run w0 evs)) <= 1 /\
    (liveContentListeners r (run w0 evs) <> [] ->
     hasModelListenerOnResourcePath (tracker (run w0 evs)) !! r = Some true).
Proof.
  intros config themeId ms active visible evs r w0 Hquiet.
  destruct (run_Consistent evs w0) as [_ Hcons]; [| |done|].
  - apply create_TimersOk.
  - subst w0. rewrite create_constructed. unfold Consistent. cbn.
    split_and!; try done. by intros tm ?%elem_of_nil.
  - split; [by apply Consistent_at_most_one|].
    intros Hlive. destruct Hcons as (_ & _ & Hflag & _).
    destruct (liveContentListeners r (run w0 evs)) as [|[b r'] ls] eqn:Hls; [done|].
    assert (Hb : b ∈ map fst (liveContentListeners r (run w0 evs))).
    { rewrite Hls. by left. }
    apply subscribersFrom_lookup in Hb as (c & Hc & _ & Hsel & Hin).
    rewrite Nat.sub_0_r in Hc. unfold onResource in Hsel.
    apply String.eqb_eq in Hsel as <-. by apply (Hflag b).
Qed.

End ConsistencyFacts.

(** ** File changes, and edits after a listener has unbound itself *)

Section LastFacts.
Context `{Services}.

(** X17: whatever the file-change event, [onFileChanges] changes
    nothing in the tracker or the host; it resolves every configured
    style path once, in the order of the list, and after that either
    does nothing more or makes one full reload of all previews. *)
Theorem file_change_only_resolves_and_reloads :
  forall (w : World) (e : FileChangesEvent),
    exists es,
      onFileChanges e w =
        Returned tt
          (logged (map ToResource (markdownConfigurationPaths (tracker w)) ++ es) w) /\
      (es = [] \/
       es = ReloadMarkdownEditors true None ::
            editorReloads true None (visibleEditors (host w))).
Proof.
  intros w e. unfold onFileChanges, bind at 1, gets.
  destruct (markdownConfigurationPaths (tracker w)) as [|p rest] eqn:Hpaths.
  - exists []. cbn. rewrite logged_nil. by split; [|left].
  - cbn [length Nat.eqb negb]. unfold bind at 1. rewrite resolveAll_spec.
    destruct (containsAny _ _ _).
    + unfold bind. rewrite reloadMarkdownEditors_spec. unfold ret.
      rewrite logged_logged. eexists. split; [reflexivity | by right].
    + unfold ret. exists []. rewrite app_nil_r. by split; [|left].
Qed.

(** X18: once the timeout has found no preview and the closure has
    unbound itself, further edits of the document schedule nothing:
    when that closure held the only content listener of the document,
    a content change after the timeout leaves the world as it is. *)
Theorem edit_after_self_unbind_schedules_nothing :
  forall (w : World) (tm : Timer) (c : Closure) (t : nat),
    timers (host w) = [tm] ->
    timer_due tm <= t ->
    closures w !! timer_closure tm = Some c ->
    (forall e, e ∈ visibleEditors (host w) ->
               isReloadTarget (Some (markdownResource c)) e = false) ->
    (forall i c', closures w !! i = Some c' ->
                  markdownResource c' = markdownResource c ->
                  ContentListener ∈ toUnbind c' -> i = timer_closure tm) ->
    let w' := step w (ClockAdvanced t) in
    timers (host w') = [] /\
    step w' (ContentChanged (markdownResource c)) = w'.
Proof.
  intros w tm c t Htimers Hdue Hc Hclosed Honly w'. subst w'.
  assert (Hfired : step w (ClockAdvanced t) = fired tm c t w).
  { unfold step. by rewrite (clock_fires w tm c t). }
  rewrite Hfired. unfold fired.
  destruct (no_target_existsb _ _ Hclosed) as [-> _].
  split; [reflexivity|].
  unfold step, deliver, subscribers, bind at 1, gets.
  cbn [closures set_host world_of unbind bind modify set_closures set_tracker logged].
  rewrite subscribersFrom_nil; [done|].
  intros j c' Hj Hsel Hin.
  destruct (decide (j = timer_closure tm)) as [->|Hne].
  - rewrite list_lookup_alter_eq, Hc in Hj. injection Hj as <-.
    cbn in Hin. by apply elem_of_nil in Hin.
  - rewrite list_lookup_alter_ne in Hj by done.
    apply Hne, (Honly j c'); [done| |done].
    unfold onResource in Hsel. by apply String.eqb_eq in Hsel.
Qed.

End LastFacts.

(** ** Further worked examples *)

(** Witness of X4: the timeout of an edit fires after [dispose]. *)
Lemma dispose_leaves_timeout_and_document_listeners_witness :
  (1300, ReloadMarkdownEditors false (Some sampleDocument))
    ∈ trace (step (H := sampleServices)
               (world_of (dispose sampleEdited)) (ClockAdvanced 1300)).
Proof.
  apply (dispose_leaves_timeout_and_document_listeners (H := sampleServices)
           sampleEdited sampleTimer sampleClosure 1300 eq_refl (le_n _) eq_refl).
Defined.

(** Witness of X11: the sample preview is closed and activated again. *)
Lemma input_dispose_then_reattach_witness :
  liveContentListeners sampleDocument
    (world_of (onEditorsChanged
       (step (H := sampleServices)
          (world_of (onEditorsChanged samplePreviewShown)) (InputDisposed 1)))) =
  [(1, sampleDocument)].
Proof.
  apply (input_dispose_then_reattach (H := sampleServices)
           samplePreviewShown samplePreview sampleDocument eq_refl eq_refl).
  - apply (bool_decide_unpack _). vm_compute. exact I.
  - reflexivity.
  - reflexivity.
Defined.

(** Witness of X12: the model of the sample document is disposed and
    created again. *)
Lemma model_dispose_then_reattach_witness :
  liveContentListeners sampleDocument
    (world_of (onEditorsChanged
       (step (H := sampleServices)
          (step (H := sampleServices)
             (world_of (onEditorsChanged samplePreviewShown))
             (ModelWillDispose sampleDocument))
          (ModelCreated sampleDocument)))) =
  [(1, sampleDocument)].
Proof.
  apply (model_dispose_then_reattach (H := sampleServices)
           samplePreviewShown samplePreview sampleDocument eq_refl eq_refl).
  - apply (bool_decide_unpack _). vm_compute. exact I.
  - reflexivity.
  - reflexivity.
Defined.

(** Witness of X13: the sample document is edited at 1000 ms, the
    other document at 1100 ms; only the other document is reloaded. *)
Lemma edit_of_other_document_cancels_pending_reload_witness :
  exists new,
    trace (run (H := sampleServices) sampleTwoListening
             [ClockAdvanced 1000; ContentChanged sampleDocument;
              ClockAdvanced 1100; ContentChanged sampleOtherDocument;
              ClockAdvanced 1500]) = trace sampleTwoListening ++ new /\
    reloadCalls new = [(1400, ReloadMarkdownEditors false (Some sampleOtherDocument))].
Proof.
  apply (edit_of_other_document_cancels_pending_reload (H := sampleServices)
           sampleTwoListening sampleDocument sampleOtherDocument 1000 1100 1500).
  - split; [vm_compute; lia | exact I].
  - discriminate.
  - discriminate.
  - vm_compute. lia.
  - intros tm Hin. by apply elem_of_nil in Hin.
  - lia.
  - unfold RELOAD_MARKDOWN_DELAY. lia.
  - unfold RELOAD_MARKDOWN_DELAY. lia.
Defined.

(** Witness of X14: edits at 1000 ms and 1400 ms of the visible sample
    preview give reloads at 1300 ms and 1700 ms. *)
Lemma edits_a_delay_apart_reload_twice_witness :
  exists new,
    trace (run (H := sampleServices) sampleListening
             [ClockAdvanced 1000; ContentChanged sampleDocument;
              ClockAdvanced 1400; ContentChanged sampleDocument;
              ClockAdvanced 2000]) = trace sampleListening ++ new /\
    reloadCalls new =
      [(1300, ReloadMarkdownEditors false (Some sampleDocument));
       (1700, ReloadMarkdownEditors false (Some sampleDocument))].
Proof.
  apply (edits_a_delay_apart_reload_twice (H := sampleServices)
           sampleListening sampleDocument 1000 1400 2000).
  - split; [vm_compute; lia | exact I].
  - discriminate.
  - exists (sampleEditor samplePreview). split.
    + apply list_elem_of_In. by left.
    + exists samplePreview, sampleDocument. split_and!; try reflexivity. by right.
  - vm_compute. lia.
  - intros tm Hin. by apply elem_of_nil in Hin.
  - unfold RELOAD_MARKDOWN_DELAY. lia.
  - unfold RELOAD_MARKDOWN_DELAY. lia.
Defined.

(** Witness of X16: in [quietScenario] the preview is closed only after
    the reload; the sample document never has two content listeners. *)
Lemma one_listener_per_document_without_disposal_during_timeout_witness :
  length (liveContentListeners sampleDocument
            (run (H := sampleServices) sampleWorld quietScenario)) <= 1.
Proof.
  apply (one_listener_per_document_without_disposal_during_timeout
           (H := sampleServices)
           (stylesConfiguration ["a.css"]) "vs-dark" {[sampleDocument]} None []
           quietScenario sampleDocument).
  cbn [quietScenario previewOpened app quietDisposals isDisposal].
  repeat split; intros Hdisposal; first [discriminate Hdisposal | reflexivity].
Defined.

(** Witness of X18: an edit after the timeout of the covered preview
    has fired schedules nothing. *)
Lemma edit_after_self_unbind_schedules_nothing_witness :
  step (H := sampleServices)
    (step (H := sampleServices) samplePreviewClosed (ClockAdvanced 1300))
    (ContentChanged sampleDocument) =
  step (H := sampleServices) samplePreviewClosed (ClockAdvanced 1300).
Proof.
  apply (edit_after_self_unbind_schedules_nothing (H := sampleServices)
           samplePreviewClosed sampleTimer sampleClosure 1300 eq_refl (le_n _) eq_refl).
  - intros e He. apply list_elem_of_singleton in He. by subst e.
  - intros [|[|i]] c' Hi; [done | discriminate Hi | discriminate Hi].
Defined.

(** ** The fingerprint of a configuration without style list *)

(** C1, as stated, fails: after the configuration with the empty style
    list, the configuration [null] has the same joined style-path list,
    the empty string, and yet the sample tracker reloads its previews,
    since the code compares the stored thumbprint [""] with
    [undefined]. *)
Lemma missing_list_after_empty_list_breaks_joined_rule :
  ~ reloadsIffJoinedListDiffers (H := sampleServices) sampleListening
      (stylesConfiguration []) JNull.
Proof.
  intros [Hreload _]. apply Hreload; [|reflexivity].
  apply list_elem_of_In. vm_compute. left. reflexivity.
Qed.
